(** * email-agent: the e-mail workflow, embedded and verified

    A shallow embedding of [src/models.py], [src/state.py],
    [src/services/mock_services.py], [src/agent.py] and [src/main.py].

    - Pydantic models are records, the two [Enum]s are inductive types.
    - A Python [dict] with string keys is a [gmap string _].
    - A naive [datetime] is a day ordinal plus the four time-of-day fields.
      The stages are first written on an unbounded day line; Module
      [Runtime] adds the range of Python's dates and the [EmailAgent]
      object, and the properties that depend on either are stated there.
    - Python exceptions are the [Raise] case of [result]; the payload is
      what [str(e)] yields.
    - [print] appends one entry to a console log that is threaded through
      the stages together with the possible exception (monad [M]).
    - The language model, the two output parsers, [strftime] and the clock
      are collaborators from outside the repository: they are the
      variables of Section [Agent]. *)

From Stdlib Require Import ZArith String Ascii List Bool Sorted Lia.
From stdpp Require Import base option list strings gmap pretty.
Import ListNotations.

Local Open Scope string_scope.
Local Open Scope Z_scope.

(** ** Exceptions *)

Inductive result (A : Type) : Type :=
| Ok (a : A)
| Raise (msg : string).
Arguments Ok {A} a.
Arguments Raise {A} msg.

(** ** src/models.py *)

Module Models.

Inductive EmailUrgency := HIGH | MEDIUM | LOW.

Inductive EmailIntent :=
| MEETING_REQUEST
| SUPPORT_QUESTION
| INFORMATION_REQUEST
| SPAM
| NEWSLETTER
| URGENT_BUSINESS
| FOLLOW_UP.

#[global] Instance EmailUrgency_eq_dec : EqDecision EmailUrgency.
Proof. solve_decision. Defined.

#[global] Instance EmailIntent_eq_dec : EqDecision EmailIntent.
Proof. solve_decision. Defined.

(** The [.value] of the string enums. *)
Definition urgency_value (u : EmailUrgency) : string :=
  match u with
  | HIGH => "high"
  | MEDIUM => "medium"
  | LOW => "low"
  end.

Definition intent_value (i : EmailIntent) : string :=
  match i with
  | MEETING_REQUEST => "meeting_request"
  | SUPPORT_QUESTION => "support_question"
  | INFORMATION_REQUEST => "information_request"
  | SPAM => "spam"
  | NEWSLETTER => "newsletter"
  | URGENT_BUSINESS => "urgent_business"
  | FOLLOW_UP => "follow_up"
  end.

Record EmailClassification := {
  intent : EmailIntent;
  urgency : EmailUrgency;
  requires_response : bool;
  reasoning : string
}.

(** A naive [datetime]: proleptic day ordinal and time of day. *)
Record datetime := {
  dt_ordinal : Z;
  dt_hour : Z;
  dt_minute : Z;
  dt_second : Z;
  dt_microsecond : Z
}.

Record EmailData := {
  sender : string;
  sender_title : option string;
  sender_company : option string;
  subject : string;
  content : string;
  received_at : datetime;
  thread_id : option string
}.

Record CalendarSlot := {
  start_time : datetime;
  end_time : datetime;
  duration_minutes : Z
}.

Record ResponseDraft := {
  draft_subject : string;
  draft_content : string;
  tone : string;
  includes_meeting_times : bool;
  proposed_times : list CalendarSlot
}.

(** [ResponseDraft(subject=..., content=..., tone=...)]: the two remaining
    fields take their declared defaults, [False] and [[]]. *)
Definition ResponseDraft_defaults (s c t : string) : ResponseDraft :=
  {| draft_subject := s; draft_content := c; tone := t;
     includes_meeting_times := false; proposed_times := [] |}.

End Models.
Import Models.

(** ** datetime arithmetic used by the calendar service *)

Module Datetime.

(** [dt + timedelta(days=d)], on the unbounded day line: the date the sum
    is when it is a date.  [Runtime.add_days] adds the range. *)
Definition add_days (dt : datetime) (d : Z) : datetime :=
  {| dt_ordinal := dt_ordinal dt + d;
     dt_hour := dt_hour dt; dt_minute := dt_minute dt;
     dt_second := dt_second dt; dt_microsecond := dt_microsecond dt |}.

(** [dt.replace(hour=h, minute=m, second=s, microsecond=us)]. *)
Definition replace (dt : datetime) (h m s us : Z) : datetime :=
  {| dt_ordinal := dt_ordinal dt;
     dt_hour := h; dt_minute := m; dt_second := s; dt_microsecond := us |}.

(** Microseconds since the origin of the day line: naive datetimes are
    compared and subtracted through this number. *)
Definition to_microseconds (dt : datetime) : Z :=
  (((dt_ordinal dt * 24 + dt_hour dt) * 60 + dt_minute dt) * 60
   + dt_second dt) * 1000000 + dt_microsecond dt.

Definition lt (a b : datetime) : Prop := to_microseconds a < to_microseconds b.

Definition ltb (a b : datetime) : bool := to_microseconds a <? to_microseconds b.

(** [(b - a)] as a timedelta, in microseconds. *)
Definition sub (b a : datetime) : Z := to_microseconds b - to_microseconds a.

Definition microseconds_per_minute : Z := 60 * 1000000.

End Datetime.

(** ** src/services/mock_services.py *)

Module MockGmailService.

Definition mock_contacts : gmap string (gmap string string) :=
  <["ceo@company.com" :=
      <["name" := "CEO"]>
      (<["title" := "Chief Executive Officer"]>
      (<["company" := "Important Corp"]>
      (<["importance" := "high"]>
      (<["relationship" := "key_stakeholder"]> ∅))))]>
  (<["support@customer.com" :=
      <["name" := "Support Team"]>
      (<["title" := "Customer Support"]>
      (<["company" := "Customer Corp"]>
      (<["importance" := "medium"]>
      (<["relationship" := "customer"]> ∅))))]> ∅).

Definition get_sender_context (email_address : string) : gmap string string :=
  default
    (<["name" := email_address]>
     (<["importance" := "medium"]>
     (<["relationship" := "unknown"]> ∅)))
    (mock_contacts !! email_address).

End MockGmailService.

Module MockCalendarService.

(** The body of the [for day in range(1, days_ahead + 1)] loop: the two
    slots appended for one day. *)
Definition day_slots (now : datetime) (day : Z) : list CalendarSlot :=
  let date := Datetime.add_days now day in
  [ {| start_time := Datetime.replace date 9 0 0 0;
       end_time := Datetime.replace date 10 0 0 0;
       duration_minutes := 60 |};
    {| start_time := Datetime.replace date 14 0 0 0;
       end_time := Datetime.replace date 15 0 0 0;
       duration_minutes := 60 |} ].

(** [range(1, days_ahead + 1)]; empty when [days_ahead <= 0]. *)
Definition day_range (days_ahead : Z) : list Z :=
  map Z.of_nat (seq 1 (Z.to_nat days_ahead)).

(** [now] is the reading of [datetime.now()].  This is the list the call
    returns whenever it returns; [Runtime.get_availability] adds the case
    in which a day of the range is not a date and the call raises. *)
Definition get_availability (now : datetime) (days_ahead : Z) : list CalendarSlot :=
  let slots := concat (map (day_slots now) (day_range days_ahead)) in
  take 5 slots.

Definition default_days_ahead : Z := 7.

End MockCalendarService.

(** ** src/state.py *)

(** A LangChain message: its class and its [content]. *)
Inductive BaseMessage :=
| HumanMessage (msg_content : string)
| AIMessage (msg_content : string).

Record EmailAgentState := {
  email : EmailData;
  sender_context : option (gmap string string);
  classification : option EmailClassification;
  calendar_availability : option (list CalendarSlot);
  response_draft : option ResponseDraft;
  final_response : option string;
  should_send : bool;
  messages : list BaseMessage;
  error : option string
}.

(** [state[key] = v], one function per key. *)
Definition set_sender_context (st : EmailAgentState) (v : gmap string string) :=
  {| email := email st; sender_context := Some v;
     classification := classification st;
     calendar_availability := calendar_availability st;
     response_draft := response_draft st;
     final_response := final_response st; should_send := should_send st;
     messages := messages st; error := error st |}.

Definition set_classification (st : EmailAgentState) (v : EmailClassification) :=
  {| email := email st; sender_context := sender_context st;
     classification := Some v;
     calendar_availability := calendar_availability st;
     response_draft := response_draft st;
     final_response := final_response st; should_send := should_send st;
     messages := messages st; error := error st |}.

Definition set_calendar_availability (st : EmailAgentState) (v : list CalendarSlot) :=
  {| email := email st; sender_context := sender_context st;
     classification := classification st;
     calendar_availability := Some v;
     response_draft := response_draft st;
     final_response := final_response st; should_send := should_send st;
     messages := messages st; error := error st |}.

Definition set_response_draft (st : EmailAgentState) (v : ResponseDraft) :=
  {| email := email st; sender_context := sender_context st;
     classification := classification st;
     calendar_availability := calendar_availability st;
     response_draft := Some v;
     final_response := final_response st; should_send := should_send st;
     messages := messages st; error := error st |}.

Definition set_final_response (st : EmailAgentState) (v : string) :=
  {| email := email st; sender_context := sender_context st;
     classification := classification st;
     calendar_availability := calendar_availability st;
     response_draft := response_draft st;
     final_response := Some v; should_send := should_send st;
     messages := messages st; error := error st |}.

Definition set_should_send (st : EmailAgentState) (v : bool) :=
  {| email := email st; sender_context := sender_context st;
     classification := classification st;
     calendar_availability := calendar_availability st;
     response_draft := response_draft st;
     final_response := final_response st; should_send := v;
     messages := messages st; error := error st |}.

Definition set_error (st : EmailAgentState) (v : string) :=
  {| email := email st; sender_context := sender_context st;
     classification := classification st;
     calendar_availability := calendar_availability st;
     response_draft := response_draft st;
     final_response := final_response st; should_send := should_send st;
     messages := messages st; error := Some v |}.

(** [state["messages"].append(m)]. *)
Definition append_message (st : EmailAgentState) (m : BaseMessage) :=
  {| email := email st; sender_context := sender_context st;
     classification := classification st;
     calendar_availability := calendar_availability st;
     response_draft := response_draft st;
     final_response := final_response st; should_send := should_send st;
     messages := messages st ++ [m]; error := error st |}.

(** ** src/prompts.py

    The two templates have fixed text; a formatted prompt is determined by
    the keyword arguments of [format_messages], which is what the language
    model receives. *)

Inductive prompt :=
| CLASSIFICATION_PROMPT
    (format_instructions p_sender p_sender_title p_sender_company
     p_subject p_content p_importance p_relationship : string)
| RESPONSE_PROMPT
    (format_instructions p_sender p_subject p_content p_intent p_urgency
     p_importance p_relationship p_availability : string).

(** ** The workflow graph (langgraph's [StateGraph]) *)

Inductive node :=
| enrich_sender
| classify_email
| check_calendar
| draft_response
| human_review
| send_email.

#[global] Instance node_eq_dec : EqDecision node.
Proof. solve_decision. Defined.

Inductive target :=
| To (n : node)
| END.

(** What a run leaves behind besides the returned state: the lines printed
    on the console, and the nodes the driver has executed, in order. *)
Record world := {
  stdout : list string;
  executed : list node
}.

Definition empty_world : world := {| stdout := []; executed := [] |}.

(** Computations that print and may raise.  An exception keeps the
    effects that happened before it. *)
Definition M (A : Type) : Type := world -> result A * world.

Definition ret {A} (a : A) : M A := fun w => (Ok a, w).

Definition bind {A B} (c : M A) (k : A -> M B) : M B :=
  fun w =>
    match c w with
    | (Ok a, w') => k a w'
    | (Raise e, w') => (Raise e, w')
    end.

Definition raise {A} (e : string) : M A := fun w => (Raise e, w).

Definition lift {A} (r : result A) : M A := fun w => (r, w).

(** [try: body; except Exception as e: handler(str(e))]. *)
Definition try_except {A} (body : M A) (handler : string -> M A) : M A :=
  fun w =>
    match body w with
    | (Ok a, w') => (Ok a, w')
    | (Raise e, w') => handler e w'
    end.

Definition print (line : string) : M unit :=
  fun w => (Ok tt, {| stdout := stdout w ++ [line]; executed := executed w |}).

Definition mark_executed (n : node) : M unit :=
  fun w => (Ok tt, {| stdout := stdout w; executed := executed w ++ [n] |}).

(** Reading a key whose value is [None] and then using the value. *)
Definition not_none {A} (o : option A) (what : string) : M A :=
  match o with
  | Some a => ret a
  | None => raise ("'NoneType' object has no attribute '" ++ what ++ "'")
  end.

Declare Scope m_scope.
Delimit Scope m_scope with M.
Notation "'do' x <- c ; k" := (bind c (fun x => k))
  (at level 10, x name, c at level 100, k at level 200) : m_scope.
Notation "'exec' c ; k" := (bind c (fun _ => k))
  (at level 10, c at level 100, k at level 200) : m_scope.

(** An outgoing edge of a node: [add_edge], or [add_conditional_edges]
    with its routing function and its label table. *)
Inductive edges :=
| Edge (t : target)
| ConditionalEdges (path : EmailAgentState -> M string)
                   (path_map : list (string * target)).

Record StateGraph := {
  entry_point : node;
  node_action : node -> EmailAgentState -> M EmailAgentState;
  node_edges : node -> edges
}.

Fixpoint path_lookup (label : string) (path_map : list (string * target))
  : option target :=
  match path_map with
  | [] => None
  | (l, t) :: rest => if String.eqb l label then Some t else path_lookup label rest
  end.

(** Where an edge leads from the state a node has returned. *)
Definition follow (es : edges) (st : EmailAgentState) : M target :=
  match es with
  | Edge t => ret t
  | ConditionalEdges path path_map =>
      (do label <- path st;
       match path_lookup label path_map with
       | Some t => ret t
       | None => raise ("KeyError: " ++ label)
       end)%M
  end.

(** The driver behind [graph.invoke]: run the node, follow its edge, stop
    at [END]; [limit] is langgraph's recursion limit. *)
Fixpoint run_from (g : StateGraph) (limit : nat) (n : node)
  (st : EmailAgentState) : M EmailAgentState :=
  match limit with
  | O => raise "GraphRecursionError"
  | S limit' =>
      (exec mark_executed n;
       do st' <- node_action g n st;
       do next <- follow (node_edges g n) st';
       match next with
       | END => ret st'
       | To n' => run_from g limit' n' st'
       end)%M
  end.

Definition recursion_limit : nat := 25.

Definition invoke (g : StateGraph) (st : EmailAgentState) : M EmailAgentState :=
  run_from g recursion_limit (entry_point g) st.

(** ** src/agent.py *)

Definition newline : string := String (ascii_of_nat 10) "".

(** ["=" * 50]. *)
Definition rule50 : string := String.concat "" (replicate 50 "=").

(** The bytes in front of [" EMAIL SENT!"] in the source file. *)
Definition sent_marker : string :=
  string_of_list_ascii
    (map ascii_of_nat [195; 176; 197; 184; 226; 128; 156; 194; 167]%nat).

(** [d.get(key, default)]. *)
Definition dict_get (d : gmap string string) (key dflt : string) : string :=
  default dflt (d !! key).

(** The classification substituted when the classify stage fails. *)
Definition fallback_classification : EmailClassification :=
  {| intent := INFORMATION_REQUEST;
     urgency := MEDIUM;
     requires_response := true;
     reasoning := "Failed to classify, using default" |}.

(** The draft substituted when the drafting stage fails. *)
Definition fallback_draft (e : EmailData) : ResponseDraft :=
  ResponseDraft_defaults
    ("Re: " ++ subject e)
    "Thank you for your email. I'll review this and get back to you soon."
    "professional".

Section Agent.

(** [self.llm.invoke(prompt).content], or the exception it raises. *)
Variable llm_invoke : prompt -> result string.

(** [PydanticOutputParser.parse] for the two models, and the text of
    [get_format_instructions()]. *)
Variable classification_parse : string -> result EmailClassification.
Variable response_parse : string -> result ResponseDraft.
Variable classification_format_instructions : string.
Variable response_format_instructions : string.

(** [datetime.strftime]. *)
Variable strftime : datetime -> string -> string.

(** What [datetime.now()] reads during the run. *)
Variable now : datetime.

Local Open Scope m_scope.

Definition _enrich_sender_context (state : EmailAgentState) : M EmailAgentState :=
  let email := email state in
  let sender_context := MockGmailService.get_sender_context (sender email) in
  let state := set_sender_context state sender_context in
  let state := append_message state
    (HumanMessage ("Enriched sender context for " ++ sender email)) in
  ret state.

(** [CLASSIFICATION_PROMPT.format_messages(...)] in [_classify_email]. *)
Definition classification_prompt (email : EmailData)
  (sender_context : gmap string string) : prompt :=
  CLASSIFICATION_PROMPT
    classification_format_instructions
    (sender email)
    (dict_get sender_context "title" "Unknown")
    (dict_get sender_context "company" "Unknown")
    (subject email)
    (content email)
    (dict_get sender_context "importance" "medium")
    (dict_get sender_context "relationship" "unknown").

Definition _classify_email (state : EmailAgentState) : M EmailAgentState :=
  let email := email state in
  do sender_context <- not_none (sender_context state) "get";
  let formatted_prompt := classification_prompt email sender_context in
  try_except
    (do response <- lift (llm_invoke formatted_prompt);
     do classification <- lift (classification_parse response);
     let state := set_classification state classification in
     let state := append_message state
       (AIMessage ("Classified email: " ++ intent_value (intent classification)
                   ++ ", " ++ urgency_value (urgency classification))) in
     ret state)
    (fun e =>
       let state := set_error state ("Classification failed: " ++ e) in
       let state := set_classification state fallback_classification in
       ret state).

Definition _check_calendar_availability (state : EmailAgentState) : M EmailAgentState :=
  do classification <- not_none (classification state) "intent";
  if decide (intent classification = MEETING_REQUEST) then
    let availability :=
      MockCalendarService.get_availability now
        MockCalendarService.default_days_ahead in
    let state := set_calendar_availability state availability in
    let state := append_message state
      (HumanMessage ("Retrieved " ++ pretty (length availability)
                     ++ " available time slots")) in
    ret state
  else
    ret state.

(** One line of the availability text. *)
Definition slot_line (slot : CalendarSlot) : string :=
  "- " ++ strftime (start_time slot) "%A, %B %d at %I:%M %p"
  ++ " - " ++ strftime (end_time slot) "%I:%M %p".

(** The key is always present, so [state.get(key, [])] is its value;
    [None] and [[]] are both falsy. *)
Definition availability_text (calendar_availability : option (list CalendarSlot)) : string :=
  match calendar_availability with
  | Some (slot :: slots) =>
      String.concat newline (map slot_line (slot :: slots))
  | Some [] | None => "No calendar check needed"
  end.

(** [RESPONSE_PROMPT.format_messages(...)] in [_draft_response]. *)
Definition response_prompt (email : EmailData)
  (classification : EmailClassification)
  (sender_context : gmap string string)
  (calendar_availability : option (list CalendarSlot)) : prompt :=
  RESPONSE_PROMPT
    response_format_instructions
    (sender email)
    (subject email)
    (content email)
    (intent_value (intent classification))
    (urgency_value (urgency classification))
    (dict_get sender_context "importance" "medium")
    (dict_get sender_context "relationship" "unknown")
    (availability_text calendar_availability).

Definition _draft_response (state : EmailAgentState) : M EmailAgentState :=
  let email := email state in
  do classification <- not_none (classification state) "intent";
  do sender_context <- not_none (sender_context state) "get";
  let calendar_availability := calendar_availability state in
  let formatted_prompt :=
    response_prompt email classification sender_context calendar_availability in
  try_except
    (do response <- lift (llm_invoke formatted_prompt);
     do draft <- lift (response_parse response);
     let state := set_response_draft state draft in
     let state := append_message state
       (AIMessage ("Drafted response with tone: " ++ tone draft)) in
     ret state)
    (fun e =>
       let state := set_error state ("Response drafting failed: " ++ e) in
       let state := set_response_draft state (fallback_draft email) in
       ret state).

Definition _human_review (state : EmailAgentState) : M EmailAgentState :=
  let draft := response_draft state in
  exec print (newline ++ rule50);
  exec print "DRAFT EMAIL FOR REVIEW";
  exec print rule50;
  do draft <- not_none draft "subject";
  exec print ("Subject: " ++ draft_subject draft);
  exec print ("Tone: " ++ tone draft);
  exec print (newline ++ "Content:");
  exec print (draft_content draft);
  exec print (newline ++ rule50);
  let state := set_should_send state true in
  let state := set_final_response state (draft_content draft) in
  let state := append_message state
    (HumanMessage "Email draft presented for human review") in
  ret state.

Definition _send_email (state : EmailAgentState) : M EmailAgentState :=
  exec print (newline ++ sent_marker ++ " EMAIL SENT!");
  exec print ("Final response: " ++ default "None" (final_response state));
  let state := append_message state (AIMessage "Email sent successfully") in
  ret state.

(** *** Conditional edge functions *)

Definition _should_respond (state : EmailAgentState) : M string :=
  do classification <- not_none (classification state) "requires_response";
  if negb (requires_response classification) then ret "ignore"
  else if bool_decide (intent classification ∈ [SPAM; NEWSLETTER]) then ret "ignore"
  else ret "respond".

Definition _needs_calendar (state : EmailAgentState) : M string :=
  do classification <- not_none (classification state) "intent";
  if decide (intent classification = MEETING_REQUEST) then ret "calendar_needed"
  else ret "no_calendar".

Definition _human_approval (state : EmailAgentState) : M string :=
  ret (if should_send state then "approved" else "rejected").

(** *** The graph *)

Definition _build_graph : StateGraph :=
  {| entry_point := enrich_sender;
     node_action := fun n =>
       match n with
       | enrich_sender => _enrich_sender_context
       | classify_email => _classify_email
       | check_calendar => _check_calendar_availability
       | draft_response => _draft_response
       | human_review => _human_review
       | send_email => _send_email
       end;
     node_edges := fun n =>
       match n with
       | enrich_sender => Edge (To classify_email)
       | classify_email =>
           ConditionalEdges _should_respond
             [("respond", To check_calendar); ("ignore", END)]
       | check_calendar =>
           ConditionalEdges _needs_calendar
             [("calendar_needed", To draft_response);
              ("no_calendar", To draft_response)]
       | draft_response => Edge (To human_review)
       | human_review =>
           ConditionalEdges _human_approval
             [("approved", To send_email); ("rejected", END)]
       | send_email => Edge END
       end |}.

Definition initial_state (email_data : EmailData) : EmailAgentState :=
  {| email := email_data;
     sender_context := None;
     classification := None;
     calendar_availability := None;
     response_draft := None;
     final_response := None;
     should_send := false;
     messages := [];
     error := None |}.

Definition process_email (email_data : EmailData) : M EmailAgentState :=
  invoke _build_graph (initial_state email_data).

End Agent.

(** ** src/main.py

    Python strings are held as their UTF-8 bytes; the pictographs that the
    driver prints are spelled out byte by byte. *)

Module Main.

Definition utf8 (bytes : list nat) : string :=
  string_of_list_ascii (map ascii_of_nat bytes).

Definition cross_mark : string := utf8 [226; 157; 140]%nat.
Definition check_mark : string := utf8 [226; 156; 133]%nat.
Definition memo : string := utf8 [240; 159; 147; 157]%nat.
Definition envelope : string := utf8 [240; 159; 147; 167]%nat.
Definition no_entry : string := utf8 [240; 159; 154; 171]%nat.
Definition party_popper : string := utf8 [240; 159; 142; 137]%nat.

(** A byte of the form [10xxxxxx] continues the character before it. *)
Definition utf8_continuation (c : ascii) : bool :=
  (128 <=? nat_of_ascii c)%nat && (nat_of_ascii c <? 192)%nat.

(** [s[:n]]: the first [n] characters of [s]. *)
Fixpoint str_prefix (n : nat) (s : string) : string :=
  match s with
  | EmptyString => EmptyString
  | String c rest =>
      if utf8_continuation c then String c (str_prefix n rest)
      else match n with
           | O => EmptyString
           | S n' => String c (str_prefix n' rest)
           end
  end.

(** ["=" * 60]. *)
Definition rule60 : string := String.concat "" (replicate 60 "=").

Section Main.

(** [os.getenv("OPENAI_API_KEY")] once [load_dotenv()] has run. *)
Variable api_key : option string.

(** The collaborators of the agent.  The model and the clock may answer
    differently from one e-mail of the batch to the next: both are
    indexed by the position of the e-mail. *)
Variable llm_at : nat -> prompt -> result string.
Variable classification_parse : string -> result EmailClassification.
Variable response_parse : string -> result ResponseDraft.
Variable classification_format_instructions : string.
Variable response_format_instructions : string.
Variable strftime : datetime -> string -> string.
Variable clock_at : nat -> datetime.

(** The three readings of [datetime.now()] in [create_test_emails]. *)
Variable received : nat -> datetime.

Local Open Scope m_scope.

Definition load_environment : M unit :=
  match api_key with
  | Some (String _ _) => ret tt
  | Some EmptyString | None =>
      raise "OPENAI_API_KEY not found in environment variables"
  end.

Definition create_test_emails : list EmailData :=
  [ {| sender := "ceo@company.com";
       sender_title := Some "CEO";
       sender_company := Some "Important Corp";
       subject := "Meeting Request: Q4 Strategy Discussion";
       content := "Hi, I'd like to schedule a meeting next week to discuss our Q4 strategy. Are you available Tuesday or Wednesday afternoon?";
       received_at := received 1;
       thread_id := None |};
    {| sender := "support@customer.com";
       sender_title := None;
       sender_company := None;
       subject := "Question about your product features";
       content := "Hello, I'm interested in learning more about your product's API capabilities. Can you provide some documentation?";
       received_at := received 2;
       thread_id := None |};
    {| sender := "newsletter@spam.com";
       sender_title := None;
       sender_company := None;
       subject := party_popper ++ " Amazing deals just for you!";
       content := "Don't miss out on these incredible deals! Click here to save 90% on everything!";
       received_at := received 3;
       thread_id := None |} ].

(** The lines printed before an e-mail is processed. *)
Definition announce (i : nat) (email : EmailData) : M unit :=
  exec print (newline ++ rule60);
  exec print ("PROCESSING EMAIL " ++ pretty i);
  exec print rule60;
  exec print ("From: " ++ sender email);
  exec print ("Subject: " ++ subject email);
  print ("Content: " ++ str_prefix 100 (content email) ++ "...").

(** The summary printed for the state a run has returned. *)
Definition report (result : EmailAgentState) : M unit :=
  match error result with
  | Some (String c msg) => print (cross_mark ++ " Error: " ++ String c msg)
  | Some EmptyString | None =>
      match classification result with
      | Some classification =>
          exec print (check_mark ++ " Classification: "
                      ++ intent_value (intent classification)
                      ++ " (" ++ urgency_value (urgency classification) ++ ")");
          exec print (memo ++ " Reasoning: " ++ reasoning classification);
          if requires_response classification then
            print (envelope ++ " Response drafted and "
                   ++ (if should_send result then "sent" else "pending approval"))
          else
            print (no_entry ++ " No response needed")
      | None => ret tt
      end
  end.

(** The body of the [for i, email in enumerate(test_emails, 1)] loop. *)
Definition process_one (i : nat) (email : EmailData) : M unit :=
  exec announce i email;
  try_except
    (do result <- process_email (llm_at i) classification_parse response_parse
                    classification_format_instructions
                    response_format_instructions strftime (clock_at i) email;
     report result)
    (fun e => print (cross_mark ++ " Processing failed: " ++ e)).

Fixpoint for_each_email (i : nat) (test_emails : list EmailData) : M unit :=
  match test_emails with
  | [] => ret tt
  | email :: rest =>
      exec process_one i email;
      for_each_email (S i) rest
  end.

(** [EmailAgent()] builds the model client, the two services, the parsers
    and the graph; it prints nothing. *)
Definition main : M unit :=
  try_except
    (exec load_environment;
     let test_emails := create_test_emails in
     for_each_email 1 test_emails)
    (fun e => print (cross_mark ++ " Application failed to start: " ++ e)).

End Main.

End Main.

(** ** The agent as an object, with the date range of Python

    The definitions above take the day line as unbounded and read the
    contact table as a constant.  This module repeats the functions for
    which that matters with what the interpreter adds: a [datetime] holds
    no date after 9999-12-31, so [now + timedelta(days=day)] can raise
    [OverflowError]; and the contact table belongs to the [EmailAgent]
    instance, which lives on from one call of [process_email] to the
    next. *)

Module Runtime.

(** [date.max.toordinal()], the ordinal of 9999-12-31; the ordinal of
    0001-01-01 is 1. *)
Definition max_ordinal : Z := 3652059.

(** The largest number of days a [timedelta] holds. *)
Definition max_timedelta_days : Z := 999999999.

(** A reading of [datetime.now()] is a date in range. *)
Definition valid_date (dt : datetime) : Prop :=
  1 <= dt_ordinal dt <= max_ordinal.

(** [dt + timedelta(days=days)]. *)
Definition add_days (dt : datetime) (days : Z) : result datetime :=
  if Z.abs days >? max_timedelta_days then
    Raise ("days=" ++ pretty days ++ "; must have magnitude <= 999999999")
  else if (1 <=? dt_ordinal dt + days) && (dt_ordinal dt + days <=? max_ordinal) then
    Ok (Datetime.add_days dt days)
  else
    Raise "date value out of range".

(** The two slots of the day [date]. *)
Definition slots_on (date : datetime) : list CalendarSlot :=
  [ {| start_time := Datetime.replace date 9 0 0 0;
       end_time := Datetime.replace date 10 0 0 0;
       duration_minutes := 60 |};
    {| start_time := Datetime.replace date 14 0 0 0;
       end_time := Datetime.replace date 15 0 0 0;
       duration_minutes := 60 |} ].

(** The [for day in range(1, days_ahead + 1)] loop of [get_availability]:
    [days] are the days still to come, [slots] the list built so far. *)
Fixpoint collect_slots (now : datetime) (days : list Z)
  (slots : list CalendarSlot) : result (list CalendarSlot) :=
  match days with
  | [] => Ok slots
  | day :: rest =>
      match add_days now day with
      | Ok date => collect_slots now rest (slots ++ slots_on date)
      | Raise e => Raise e
      end
  end.

(** Every day of the range is built before the slice is taken. *)
Definition get_availability (now : datetime) (days_ahead : Z)
  : result (list CalendarSlot) :=
  match collect_slots now (MockCalendarService.day_range days_ahead) [] with
  | Ok slots => Ok (take 5 slots)
  | Raise e => Raise e
  end.

(** What an [EmailAgent] object owns and keeps between calls: the contact
    table of its [MockGmailService].  The model client, the parsers and
    the compiled graph (compiled without a checkpointer) hold no state of
    this repository. *)
Record EmailAgent := {
  mock_contacts : gmap string (gmap string string)
}.

(** [EmailAgent()]. *)
Definition EmailAgent_init : EmailAgent :=
  {| mock_contacts := MockGmailService.mock_contacts |}.

(** [self.gmail_service.get_sender_context(email_address)]. *)
Definition get_sender_context (self : EmailAgent) (email_address : string)
  : gmap string string :=
  default
    (<["name" := email_address]>
     (<["importance" := "medium"]>
     (<["relationship" := "unknown"]> ∅)))
    (mock_contacts self !! email_address).

(** The agent object and the world it runs in. *)
Record runtime := {
  agent : EmailAgent;
  console : world
}.

(** Computations that may read and write the agent object, print, and
    raise.  An exception keeps the effects that happened before it. *)
Definition R (A : Type) : Type := runtime -> result A * runtime.

Definition ret {A} (a : A) : R A := fun r => (Ok a, r).

Definition bind {A B} (c : R A) (k : A -> R B) : R B :=
  fun r =>
    match c r with
    | (Ok a, r') => k a r'
    | (Raise e, r') => (Raise e, r')
    end.

Definition try_except {A} (body : R A) (handler : string -> R A) : R A :=
  fun r =>
    match body r with
    | (Ok a, r') => (Ok a, r')
    | (Raise e, r') => handler e r'
    end.

(** A computation that does not touch the agent object. *)
Definition on_console {A} (c : M A) : R A :=
  fun r =>
    match c (console r) with
    | (x, w') => (x, {| agent := agent r; console := w' |})
    end.

(** Reading [self]. *)
Definition self : R EmailAgent := fun r => (Ok (agent r), r).

(** [agent = EmailAgent()]. *)
Definition construct_agent : R unit :=
  fun r => (Ok tt, {| agent := EmailAgent_init; console := console r |}).

Declare Scope r_scope.
Delimit Scope r_scope with R.
Notation "'do' x <- c ; k" := (bind c (fun x => k))
  (at level 10, x name, c at level 100, k at level 200) : r_scope.
Notation "'exec' c ; k" := (bind c (fun _ => k))
  (at level 10, c at level 100, k at level 200) : r_scope.

(** The graph of an agent object: the stages may use [self]. *)
Record StateGraph := {
  entry_point : node;
  node_action : node -> EmailAgentState -> R EmailAgentState;
  node_edges : node -> edges
}.

Fixpoint run_from (g : StateGraph) (limit : nat) (n : node)
  (st : EmailAgentState) : R EmailAgentState :=
  match limit with
  | O => on_console (raise "GraphRecursionError")
  | S limit' =>
      (exec on_console (mark_executed n);
       do st' <- node_action g n st;
       do next <- on_console (follow (node_edges g n) st');
       match next with
       | END => ret st'
       | To n' => run_from g limit' n' st'
       end)%R
  end.

Definition invoke (g : StateGraph) (st : EmailAgentState) : R EmailAgentState :=
  run_from g recursion_limit (entry_point g) st.

Section Agent.

Variable llm_invoke : prompt -> result string.
Variable classification_parse : string -> result EmailClassification.
Variable response_parse : string -> result ResponseDraft.
Variable classification_format_instructions : string.
Variable response_format_instructions : string.
Variable strftime : datetime -> string -> string.
Variable now : datetime.

Local Open Scope r_scope.

Definition _enrich_sender_context (state : EmailAgentState) : R EmailAgentState :=
  let email := email state in
  do this <- self;
  let sender_context := get_sender_context this (sender email) in
  let state := set_sender_context state sender_context in
  let state := append_message state
    (HumanMessage ("Enriched sender context for " ++ sender email)) in
  ret state.

(** The calendar lookup is outside any [try]: what it raises leaves the
    stage. *)
Definition _check_calendar_availability (state : EmailAgentState) : R EmailAgentState :=
  do classification <- on_console (not_none (classification state) "intent");
  if decide (intent classification = MEETING_REQUEST) then
    do availability <- on_console
         (lift (get_availability now MockCalendarService.default_days_ahead));
    let state := set_calendar_availability state availability in
    let state := append_message state
      (HumanMessage ("Retrieved " ++ pretty (length availability)
                     ++ " available time slots")) in
    ret state
  else
    ret state.

(** The other four stages use neither [self] nor the clock. *)
Definition _build_graph : StateGraph :=
  {| entry_point := enrich_sender;
     node_action := fun n =>
       match n with
       | enrich_sender => _enrich_sender_context
       | classify_email =>
           fun state =>
             on_console (_classify_email llm_invoke classification_parse
                           classification_format_instructions state)
       | check_calendar => _check_calendar_availability
       | draft_response =>
           fun state =>
             on_console (_draft_response llm_invoke response_parse
                           response_format_instructions strftime state)
       | human_review => fun state => on_console (_human_review state)
       | send_email => fun state => on_console (_send_email state)
       end;
     node_edges := fun n =>
       match n with
       | enrich_sender => Edge (To classify_email)
       | classify_email =>
           ConditionalEdges _should_respond
             [("respond", To check_calendar); ("ignore", END)]
       | check_calendar =>
           ConditionalEdges _needs_calendar
             [("calendar_needed", To draft_response);
              ("no_calendar", To draft_response)]
       | draft_response => Edge (To human_review)
       | human_review =>
           ConditionalEdges _human_approval
             [("approved", To send_email); ("rejected", END)]
       | send_email => Edge END
       end |}.

Definition process_email (email_data : EmailData) : R EmailAgentState :=
  invoke _build_graph (initial_state email_data).

End Agent.

(** *** The console driver on the agent object *)

Section Main.

Variable api_key : option string.
Variable llm_at : nat -> prompt -> result string.
Variable classification_parse : string -> result EmailClassification.
Variable response_parse : string -> result ResponseDraft.
Variable classification_format_instructions : string.
Variable response_format_instructions : string.
Variable strftime : datetime -> string -> string.
Variable clock_at : nat -> datetime.
Variable received : nat -> datetime.

Local Open Scope r_scope.

(** The body of the [for i, email in enumerate(test_emails, 1)] loop. *)
Definition process_one (i : nat) (email : EmailData) : R unit :=
  exec on_console (Main.announce i email);
  try_except
    (do result <- process_email (llm_at i) classification_parse response_parse
                    classification_format_instructions
                    response_format_instructions strftime (clock_at i) email;
     on_console (Main.report result))
    (fun e => on_console (print (Main.cross_mark ++ " Processing failed: " ++ e))).

Fixpoint for_each_email (i : nat) (test_emails : list EmailData) : R unit :=
  match test_emails with
  | [] => ret tt
  | email :: rest =>
      exec process_one i email;
      for_each_email (S i) rest
  end.

Definition main : R unit :=
  try_except
    (exec on_console (Main.load_environment api_key);
     exec construct_agent;
     let test_emails := Main.create_test_emails received in
     for_each_email 1 test_emails)
    (fun e =>
       on_console (print (Main.cross_mark ++ " Application failed to start: " ++ e))).

End Main.

End Runtime.

(** * Vocabulary of the properties *)

(** ** The availability provider *)

Module CalendarFacts.

(** Slots are ordered by their start time. *)
Definition starts_before (a b : CalendarSlot) : Prop :=
  Datetime.lt (start_time a) (start_time b).

(** The slot invariant of the data model. *)
Definition slot_consistent (s : CalendarSlot) : Prop :=
  Datetime.lt (start_time s) (end_time s) /\
  Datetime.sub (end_time s) (start_time s)
    = duration_minutes s * Datetime.microseconds_per_minute.

(** Start of the first slot of the day [day] days after [now]. *)
Definition morning (now : datetime) (day : Z) : Z :=
  ((dt_ordinal now + day) * 24 + 9) * 60 * 60 * 1000000.

(** All slots generated for the days [a], [a+1], ..., [a+n-1]. *)
Definition slots_from (now : datetime) (a n : nat) : list CalendarSlot :=
  concat (map (MockCalendarService.day_slots now) (map Z.of_nat (seq a n))).

End CalendarFacts.

(** More vocabulary for the slots the provider hands out. *)
Module CalendarShape.

(** The one-hour slot that starts at [h] o'clock, [day] days after [now]. *)
Definition slot_at (now : datetime) (day h : Z) : CalendarSlot :=
  {| start_time := Datetime.replace (Datetime.add_days now day) h 0 0 0;
     end_time := Datetime.replace (Datetime.add_days now day) (h + 1) 0 0 0;
     duration_minutes := 60 |}.

(** [a] is over when [b] begins. *)
Definition ends_before (a b : CalendarSlot) : Prop :=
  Datetime.to_microseconds (end_time a)
  <= Datetime.to_microseconds (start_time b).

(** The time-of-day fields are those of a well-formed [datetime]. *)
Definition valid_time_of_day (dt : datetime) : Prop :=
  0 <= dt_hour dt < 24 /\
  0 <= dt_minute dt < 60 /\
  0 <= dt_second dt < 60 /\
  0 <= dt_microsecond dt < 1000000.

End CalendarShape.

(** ** Worlds *)

(** The world after the driver has entered node [n]. *)
Definition mark (w : world) (n : node) : world :=
  {| stdout := stdout w; executed := (executed w ++ [n])%list |}.

(** The world after [lines] have been printed. *)
Definition printed (w : world) (lines : list string) : world :=
  {| stdout := (stdout w ++ lines)%list; executed := executed w |}.

(** ** Position of a stage in the pipeline *)

Definition stage_index (n : node) : nat :=
  match n with
  | enrich_sender => 0
  | classify_email => 1
  | check_calendar => 2
  | draft_response => 3
  | human_review => 4
  | send_email => 5
  end.

(** ** Routing decision after the classify stage *)

(** The classification says that no answer is due. *)
Definition ignored (c : EmailClassification) : Prop :=
  requires_response c = false \/ intent c = SPAM \/ intent c = NEWSLETTER.

Definition ignoredb (c : EmailClassification) : bool :=
  negb (requires_response c) || bool_decide (intent c ∈ [SPAM; NEWSLETTER]).

(** ** What the stages without a model compute *)

(** The state [_enrich_sender_context] returns. *)
Definition enrich_result (st : EmailAgentState) : EmailAgentState :=
  append_message
    (set_sender_context st (MockGmailService.get_sender_context (sender (email st))))
    (HumanMessage ("Enriched sender context for " ++ sender (email st))).

(** The state [_human_review] returns, and what it prints. *)
Definition review_result (st : EmailAgentState) (d : ResponseDraft) : EmailAgentState :=
  append_message
    (set_final_response (set_should_send st true) (draft_content d))
    (HumanMessage "Email draft presented for human review").

Definition review_lines (d : ResponseDraft) : list string :=
  [ newline ++ rule50; "DRAFT EMAIL FOR REVIEW"; rule50;
    "Subject: " ++ draft_subject d; "Tone: " ++ tone d;
    newline ++ "Content:"; draft_content d; newline ++ rule50 ].

(** The state [_send_email] returns, and what it prints. *)
Definition send_result (st : EmailAgentState) : EmailAgentState :=
  append_message st (AIMessage "Email sent successfully").

Definition send_lines (st : EmailAgentState) : list string :=
  [ newline ++ sent_marker ++ " EMAIL SENT!";
    "Final response: " ++ default "None" (final_response st) ].

(** ** What the two model-backed stages compute *)

Section Attempts.

Variable llm_invoke : prompt -> result string.
Variable classification_parse : string -> result EmailClassification.
Variable response_parse : string -> result ResponseDraft.
Variable classification_format_instructions : string.
Variable response_format_instructions : string.
Variable strftime : datetime -> string -> string.
Variable now : datetime.

(** The [try] block of [_classify_email]: the model call, then the
    parse of its output. *)
Definition classify_attempt (e : EmailData) (sc : gmap string string)
  : result EmailClassification :=
  match llm_invoke (classification_prompt classification_format_instructions e sc) with
  | Ok response => classification_parse response
  | Raise m => Raise m
  end.

(** The [try] block of [_draft_response]. *)
Definition draft_attempt (e : EmailData) (c : EmailClassification)
  (sc : gmap string string) (avail : option (list CalendarSlot))
  : result ResponseDraft :=
  match llm_invoke (response_prompt response_format_instructions strftime e c sc avail) with
  | Ok response => response_parse response
  | Raise m => Raise m
  end.

(** The state [_classify_email] returns. *)
Definition classify_result (st : EmailAgentState) (sc : gmap string string)
  : EmailAgentState :=
  match classify_attempt (email st) sc with
  | Ok c =>
      append_message (set_classification st c)
        (AIMessage ("Classified email: " ++ intent_value (intent c)
                    ++ ", " ++ urgency_value (urgency c)))
  | Raise m =>
      set_classification (set_error st ("Classification failed: " ++ m))
        fallback_classification
  end.

(** The state [_check_calendar_availability] returns. *)
Definition calendar_result (st : EmailAgentState) (c : EmailClassification)
  : EmailAgentState :=
  if decide (intent c = MEETING_REQUEST) then
    let availability :=
      MockCalendarService.get_availability now
        MockCalendarService.default_days_ahead in
    append_message (set_calendar_availability st availability)
      (HumanMessage ("Retrieved " ++ pretty (length availability)
                     ++ " available time slots"))
  else st.

(** The state [_draft_response] returns. *)
Definition draft_result (st : EmailAgentState) (c : EmailClassification)
  (sc : gmap string string) : EmailAgentState :=
  match draft_attempt (email st) c sc (calendar_availability st) with
  | Ok d =>
      append_message (set_response_draft st d)
        (AIMessage ("Drafted response with tone: " ++ tone d))
  | Raise m =>
      set_response_draft (set_error st ("Response drafting failed: " ++ m))
        (fallback_draft (email st))
  end.

(** *** One run of [process_email] on the e-mail [e] *)

(** The context the enrich stage stores. *)
Definition sender_ctx (e : EmailData) : gmap string string :=
  MockGmailService.get_sender_context (sender e).

(** The classification the classify stage stores: the parsed one, or
    the fallback. *)
Definition classification_of (e : EmailData) : EmailClassification :=
  match classify_attempt e (sender_ctx e) with
  | Ok c => c
  | Raise _ => fallback_classification
  end.

(** The slots the calendar stage stores, if any. *)
Definition availability_of (e : EmailData) : option (list CalendarSlot) :=
  if decide (intent (classification_of e) = MEETING_REQUEST)
  then Some (MockCalendarService.get_availability now
               MockCalendarService.default_days_ahead)
  else None.

(** The draft the drafting stage stores: the parsed one, or the
    fallback. *)
Definition draft_of (e : EmailData) : ResponseDraft :=
  match draft_attempt e (classification_of e) (sender_ctx e) (availability_of e) with
  | Ok d => d
  | Raise _ => fallback_draft e
  end.

(** The states along the run. *)
Definition classified_state (e : EmailData) : EmailAgentState :=
  classify_result (enrich_result (initial_state e)) (sender_ctx e).

Definition drafted_state (e : EmailData) : EmailAgentState :=
  draft_result
    (calendar_result (classified_state e) (classification_of e))
    (classification_of e) (sender_ctx e).

Definition sent_state (e : EmailData) : EmailAgentState :=
  send_result (review_result (drafted_state e) (draft_of e)).

(** The worlds in which the two kinds of run end. *)
Definition ignored_world (w0 : world) : world :=
  mark (mark w0 enrich_sender) classify_email.

Definition sent_world (e : EmailData) (w0 : world) : world :=
  printed
    (mark
       (printed
          (mark (mark (mark (ignored_world w0) check_calendar) draft_response)
             human_review)
          (review_lines (draft_of e)))
       send_email)
    (send_lines (review_result (drafted_state e) (draft_of e))).

End Attempts.

(** ** The console driver *)

Module MainFacts.

(** The six lines that announce the [i]-th e-mail. *)
Definition announce_lines (i : nat) (e : EmailData) : list string :=
  [ newline ++ Main.rule60; "PROCESSING EMAIL " ++ pretty i; Main.rule60;
    "From: " ++ sender e; "Subject: " ++ subject e;
    "Content: " ++ Main.str_prefix 100 (content e) ++ "..." ].

(** The last line of the summary of a returned state whose classification
    is [c]. *)
Definition verdict_line (result : EmailAgentState) (c : EmailClassification)
  : string :=
  match error result with
  | Some msg => Main.cross_mark ++ " Error: " ++ msg
  | None =>
      if requires_response c then
        Main.envelope ++ " Response drafted and "
        ++ (if should_send result then "sent" else "pending approval")
      else Main.no_entry ++ " No response needed"
  end.

(** The trace of one complete run. *)
Definition one_run (trace : list node) : Prop :=
  trace = [enrich_sender; classify_email] \/
  trace = [enrich_sender; classify_email; check_calendar;
           draft_response; human_review; send_email].

End MainFacts.

(** ** The agent object and the date range *)

Module RuntimeFacts.

(** The runtime [r] after its console has become [w]. *)
Definition with_console (r : Runtime.runtime) (w : world) : Runtime.runtime :=
  {| Runtime.agent := Runtime.agent r; Runtime.console := w |}.

(** The trace of a run that the calendar lookup has cut short. *)
Definition cut_short (trace : list node) : Prop :=
  trace = [enrich_sender; classify_email; check_calendar].

(** A clock reading on 9999-12-27, five days before the last date. *)
Definition clock_last_week : datetime :=
  {| dt_ordinal := 3652055; dt_hour := 8; dt_minute := 30;
     dt_second := 0; dt_microsecond := 0 |}.

End RuntimeFacts.

(** ** Sample collaborators and e-mails *)

Module Samples.

Definition clock : datetime :=
  {| dt_ordinal := 739000; dt_hour := 16; dt_minute := 42;
     dt_second := 7; dt_microsecond := 250000 |}.

(** The same day, some hours later. *)
Definition clock_later : datetime :=
  {| dt_ordinal := 739000; dt_hour := 21; dt_minute := 3;
     dt_second := 55; dt_microsecond := 0 |}.

Definition meeting_email : EmailData :=
  {| sender := "ceo@company.com";
     sender_title := Some "CEO";
     sender_company := Some "Important Corp";
     subject := "Meeting Request: Q4 Strategy Discussion";
     content := "Are you available Tuesday or Wednesday afternoon?";
     received_at := clock;
     thread_id := None |}.

Definition deals_email : EmailData :=
  {| sender := "newsletter@spam.com";
     sender_title := None;
     sender_company := None;
     subject := "Amazing deals just for you!";
     content := "Click here to save 90% on everything!";
     received_at := clock;
     thread_id := None |}.

(** A model that is down. *)
Definition llm_down (p : prompt) : result string :=
  Raise "Connection error.".

(** A model that answers the classification prompt and times out on the
    response prompt. *)
Definition llm_classifies_only (p : prompt) : result string :=
  match p with
  | CLASSIFICATION_PROMPT _ _ _ _ _ _ _ _ => Ok "classification"
  | RESPONSE_PROMPT _ _ _ _ _ _ _ _ _ => Raise "Request timed out."
  end.

(** A model that answers both prompts; the answer to the response prompt
    quotes the availability text it was given. *)
Definition llm_up (p : prompt) : result string :=
  match p with
  | CLASSIFICATION_PROMPT _ _ _ _ _ _ _ _ => Ok "classification"
  | RESPONSE_PROMPT _ _ _ _ _ _ _ _ availability => Ok availability
  end.

Definition parse_meeting_request (s : string) : result EmailClassification :=
  Ok {| intent := MEETING_REQUEST; urgency := HIGH;
        requires_response := true; reasoning := s |}.

Definition parse_newsletter (s : string) : result EmailClassification :=
  Ok {| intent := NEWSLETTER; urgency := LOW;
        requires_response := false; reasoning := s |}.

(** A parser that rejects every output. *)
Definition parse_nothing {A} (s : string) : result A :=
  Raise "Failed to parse output".

(** A draft whose body is the model output and that proposes no times. *)
Definition parse_plain_draft (s : string) : result ResponseDraft :=
  Ok {| draft_subject := "Re: your message"; draft_content := s;
        tone := "formal"; includes_meeting_times := false;
        proposed_times := [] |}.

(** A formatter that prints the day ordinal and the hour. *)
Definition strftime_plain (d : datetime) (fmt : string) : string :=
  pretty (dt_ordinal d) ++ "T" ++ pretty (dt_hour d).

End Samples.

(** More samples, for the properties beyond the claims. *)
Module MoreSamples.


(** A parser whose output says: spam, and a response is required. *)
Definition parse_spam_to_answer (s : string) : result EmailClassification :=
  Ok {| intent := SPAM; urgency := LOW;
        requires_response := true; reasoning := s |}.

(** A model that is down, with a different message for each prompt. *)
Definition llm_down_variously (p : prompt) : result string :=
  match p with
  | CLASSIFICATION_PROMPT _ _ _ _ _ _ _ _ => Raise "Connection error."
  | RESPONSE_PROMPT _ _ _ _ _ _ _ _ _ => Raise "Request timed out."
  end.

(** The same collaborators for every e-mail of a batch. *)
Definition llm_up_at (i : nat) : prompt -> result string := Samples.llm_up.
Definition clock_at (i : nat) : datetime := Samples.clock.

End MoreSamples.

(** * Properties *)

(** ** The availability provider *)

Module CalendarLemmas.
Import MockCalendarService CalendarFacts.

Lemma slots_from_S now a n :
  slots_from now a (S n)
  = (day_slots now (Z.of_nat a) ++ slots_from now (S a) n)%list.
Proof. reflexivity. Qed.

Lemma day_slots_consistent now day :
  Forall slot_consistent (day_slots now day).
Proof.
  unfold day_slots. repeat constructor;
    unfold Datetime.lt, Datetime.sub, Datetime.to_microseconds,
      Datetime.microseconds_per_minute; cbn; lia.
Qed.

Lemma slots_from_consistent now n : forall a,
  Forall slot_consistent (slots_from now a n).
Proof.
  induction n as [|n IH]; intros a.
  - constructor.
  - rewrite slots_from_S. apply Forall_app_2.
    + apply day_slots_consistent.
    + apply IH.
Qed.

Lemma slots_from_lower_bound now n : forall a,
  Forall (fun s => morning now (Z.of_nat a)
                   <= Datetime.to_microseconds (start_time s))
         (slots_from now a n).
Proof.
  induction n as [|n IH]; intros a.
  - constructor.
  - rewrite slots_from_S. apply Forall_app_2.
    + unfold day_slots. repeat constructor;
        unfold morning, Datetime.to_microseconds; cbn; lia.
    + eapply Forall_impl; [apply (IH (S a))|].
      intros s Hs. cbn beta in Hs. unfold morning in *. lia.
Qed.

Lemma slots_from_sorted now n : forall a,
  StronglySorted starts_before (slots_from now a n).
Proof.
  induction n as [|n IH]; intros a.
  - constructor.
  - pose proof (slots_from_lower_bound now n (S a)) as Hlow.
    specialize (IH (S a)).
    rewrite slots_from_S. unfold day_slots. cbn [app].
    constructor; [constructor; [exact IH|]|constructor].
    + eapply Forall_impl; [exact Hlow|].
      intros s Hs. cbn beta in Hs.
      unfold starts_before, Datetime.lt, morning, Datetime.to_microseconds in *.
      cbn. lia.
    + unfold starts_before, Datetime.lt, Datetime.to_microseconds; cbn. lia.
    + eapply Forall_impl; [exact Hlow|].
      intros s Hs. cbn beta in Hs.
      unfold starts_before, Datetime.lt, morning, Datetime.to_microseconds in *.
      cbn. lia.
Qed.

Lemma slots_from_length now n : forall a,
  length (slots_from now a n) = (2 * n)%nat.
Proof.
  induction n as [|n IH]; intros a.
  - reflexivity.
  - rewrite slots_from_S, length_app, (IH (S a)). cbn. lia.
Qed.

Lemma StronglySorted_take {A} (R : A -> A -> Prop) (l : list A) :
  StronglySorted R l -> forall k, StronglySorted R (take k l).
Proof.
  induction 1 as [|x l Hl IH Hx]; intros [|k]; cbn; try constructor.
  - apply IH.
  - apply Forall_take. exact Hx.
Qed.

Lemma get_availability_unfold now days_ahead :
  get_availability now days_ahead
  = take 5 (slots_from now 1 (Z.to_nat days_ahead)).
Proof. reflexivity. Qed.


End CalendarLemmas.

(** ** More on the availability provider *)

Module CalendarExtra.
Import MockCalendarService CalendarFacts CalendarShape CalendarLemmas.

Lemma slots_from_0 now a : slots_from now a 0 = [].
Proof. reflexivity. Qed.

Lemma day_slots_slot_at now day :
  day_slots now day = [slot_at now day 9; slot_at now day 14].
Proof. reflexivity. Qed.

Lemma slots_from_ends_before now n : forall a,
  StronglySorted ends_before (slots_from now a n).
Proof.
  induction n as [|n IH]; intros a.
  - constructor.
  - pose proof (slots_from_lower_bound now n (S a)) as Hlow.
    specialize (IH (S a)).
    rewrite slots_from_S. unfold day_slots. cbn [app].
    constructor; [constructor; [exact IH|]|constructor].
    + eapply Forall_impl; [exact Hlow|].
      intros s Hs. cbn beta in Hs.
      unfold ends_before, morning, Datetime.to_microseconds in *.
      cbn. lia.
    + unfold ends_before, Datetime.to_microseconds; cbn. lia.
    + eapply Forall_impl; [exact Hlow|].
      intros s Hs. cbn beta in Hs.
      unfold ends_before, morning, Datetime.to_microseconds in *.
      cbn. lia.
Qed.

Lemma slots_from_ordinal_only n1 n2 n : forall a,
  dt_ordinal n1 = dt_ordinal n2 ->
  slots_from n1 a n = slots_from n2 a n.
Proof.
  induction n as [|n IH]; intros a Hord.
  - reflexivity.
  - rewrite !slots_from_S, (IH (S a) Hord).
    unfold day_slots, Datetime.replace, Datetime.add_days; cbn.
    by rewrite Hord.
Qed.

Lemma slots_from_prefix now a n : forall m,
  (n <= m)%nat -> slots_from now a n `prefix_of` slots_from now a m.
Proof.
  revert a. induction n as [|n IH]; intros a m Hle.
  - apply prefix_nil.
  - destruct m as [|m]; [lia|].
    rewrite !slots_from_S. apply prefix_app, IH. lia.
Qed.

End CalendarExtra.

(** [get_availability] with [days_ahead <= 0] runs the loop zero times and
    returns the empty list. *)
Theorem get_availability_nonpositive (now : datetime) (days_ahead : Z) :
  days_ahead <= 0 ->
  MockCalendarService.get_availability now days_ahead = [].
Proof.
  intros Hle. rewrite CalendarLemmas.get_availability_unfold.
  replace (Z.to_nat days_ahead) with 0%nat by lia. reflexivity.
Qed.

Lemma get_availability_nonpositive_witness :
  -2 <= 0 /\
  MockCalendarService.get_availability Samples.clock (-2) = [].
Proof.
  split; [lia|].
  apply (get_availability_nonpositive Samples.clock (-2)). lia.
Defined.

(** The slots never overlap: each one is over before any later one in the
    list begins. *)
Theorem get_availability_slots_disjoint (now : datetime) (days_ahead : Z) :
  StronglySorted CalendarShape.ends_before
    (MockCalendarService.get_availability now days_ahead).
Proof.
  rewrite CalendarLemmas.get_availability_unfold.
  apply CalendarLemmas.StronglySorted_take, CalendarExtra.slots_from_ends_before.
Qed.

(** Whatever the time of day of the clock reading, every slot offered
    starts after it: the first candidate day is tomorrow. *)
Theorem get_availability_in_the_future (now : datetime) (days_ahead : Z) :
  CalendarShape.valid_time_of_day now ->
  Forall (fun s => Datetime.lt now (start_time s))
    (MockCalendarService.get_availability now days_ahead).
Proof.
  intros (Hh & Hm & Hs & Hu).
  rewrite CalendarLemmas.get_availability_unfold.
  apply Forall_take.
  eapply Forall_impl; [apply (CalendarLemmas.slots_from_lower_bound now _ 1)|].
  intros s Hlow. cbn beta in Hlow.
  unfold Datetime.lt, CalendarFacts.morning in *.
  unfold Datetime.to_microseconds at 1. lia.
Qed.

Lemma get_availability_in_the_future_witness :
  CalendarShape.valid_time_of_day Samples.clock /\
  Forall (fun s => Datetime.lt Samples.clock (start_time s))
    (MockCalendarService.get_availability Samples.clock 7).
Proof.
  assert (H : CalendarShape.valid_time_of_day Samples.clock).
  { unfold CalendarShape.valid_time_of_day; cbn; lia. }
  split; [exact H|].
  exact (get_availability_in_the_future Samples.clock 7 H).
Defined.

(** Only the date of the clock reading matters: two readings on the same
    day give the same slots. *)
Theorem get_availability_depends_on_date_only
  (now1 now2 : datetime) (days_ahead : Z) :
  dt_ordinal now1 = dt_ordinal now2 ->
  MockCalendarService.get_availability now1 days_ahead
  = MockCalendarService.get_availability now2 days_ahead.
Proof.
  intros Hord. rewrite !CalendarLemmas.get_availability_unfold.
  by rewrite (CalendarExtra.slots_from_ordinal_only now1 now2 _ 1 Hord).
Qed.

Lemma get_availability_depends_on_date_only_witness :
  dt_ordinal Samples.clock = dt_ordinal Samples.clock_later /\
  MockCalendarService.get_availability Samples.clock 2
  = MockCalendarService.get_availability Samples.clock_later 2.
Proof.
  split; [reflexivity|].
  apply (get_availability_depends_on_date_only
           Samples.clock Samples.clock_later 2).
  reflexivity.
Defined.

(** ** The availability provider with the date range *)

Module RuntimeCalendar.
Import MockCalendarService CalendarFacts CalendarShape CalendarLemmas.

Lemma add_days_in_range now day :
  Runtime.valid_date now -> 1 <= day ->
  dt_ordinal now + day <= Runtime.max_ordinal ->
  Runtime.add_days now day = Ok (Datetime.add_days now day).
Proof.
  unfold Runtime.valid_date, Runtime.add_days, Runtime.max_timedelta_days,
    Runtime.max_ordinal.
  intros Hv Hd Hle.
  destruct (Z.gtb_spec (Z.abs day) 999999999) as [Habs|_]; [lia|].
  destruct (Z.leb_spec 1 (dt_ordinal now + day)); [|lia].
  destruct (Z.leb_spec (dt_ordinal now + day) 3652059); [|lia].
  reflexivity.
Qed.

Lemma add_days_overflow now day :
  Runtime.valid_date now -> 1 <= day <= Runtime.max_ordinal ->
  Runtime.max_ordinal < dt_ordinal now + day ->
  Runtime.add_days now day = Raise "date value out of range".
Proof.
  unfold Runtime.valid_date, Runtime.add_days, Runtime.max_timedelta_days,
    Runtime.max_ordinal.
  intros Hv Hd Hgt.
  destruct (Z.gtb_spec (Z.abs day) 999999999) as [Habs|_]; [lia|].
  destruct (Z.leb_spec (dt_ordinal now + day) 3652059); [lia|].
  by rewrite andb_false_r.
Qed.

(** Whatever [add_days] returns is the date on the unbounded day line. *)
Lemma add_days_returns now day date :
  Runtime.add_days now day = Ok date -> date = Datetime.add_days now day.
Proof.
  unfold Runtime.add_days.
  destruct (_ >? _); [discriminate|].
  destruct (_ && _); [|discriminate]. congruence.
Qed.

Lemma slots_on_day_slots now day :
  Runtime.slots_on (Datetime.add_days now day) = day_slots now day.
Proof. reflexivity. Qed.

Lemma collect_slots_in_range now n : forall a acc,
  Runtime.valid_date now -> (1 <= a)%nat ->
  dt_ordinal now + Z.of_nat a + Z.of_nat n - 1 <= Runtime.max_ordinal ->
  Runtime.collect_slots now (map Z.of_nat (seq a n)) acc
  = Ok (acc ++ slots_from now a n)%list.
Proof.
  induction n as [|n IH]; intros a acc Hv Ha Hle.
  - cbn. by rewrite app_nil_r.
  - cbn [seq map Runtime.collect_slots].
    rewrite add_days_in_range by (try assumption; lia).
    rewrite slots_on_day_slots, IH by (try assumption; lia).
    by rewrite slots_from_S, app_assoc.
Qed.

Lemma collect_slots_overflow now n : forall a acc,
  Runtime.valid_date now -> (1 <= a)%nat ->
  dt_ordinal now + Z.of_nat a <= Runtime.max_ordinal + 1 ->
  Runtime.max_ordinal < dt_ordinal now + Z.of_nat a + Z.of_nat n - 1 ->
  Runtime.collect_slots now (map Z.of_nat (seq a n)) acc
  = Raise "date value out of range".
Proof.
  induction n as [|n IH]; intros a acc Hv Ha Hfirst Hgt; [lia|].
  cbn [seq map Runtime.collect_slots].
  destruct (Z_le_gt_dec (dt_ordinal now + Z.of_nat a) Runtime.max_ordinal)
    as [Hin|Hout].
  - rewrite add_days_in_range by (try assumption; lia).
    apply IH; try assumption; lia.
  - rewrite add_days_overflow; [reflexivity|assumption| |lia].
    unfold Runtime.valid_date in Hv. lia.
Qed.

Lemma collect_slots_returns now days : forall acc slots,
  Runtime.collect_slots now days acc = Ok slots ->
  slots = (acc ++ concat (map (day_slots now) days))%list.
Proof.
  induction days as [|day days IH]; intros acc slots Hrun; cbn in *.
  - rewrite app_nil_r. congruence.
  - destruct (Runtime.add_days now day) as [date|m] eqn:Hday; [|discriminate].
    apply add_days_returns in Hday. subst date.
    rewrite (IH _ _ Hrun), slots_on_day_slots.
    by rewrite <- app_assoc.
Qed.

(** Whenever the provider returns, it returns the list computed on the
    unbounded day line. *)
Lemma get_availability_returns now days_ahead slots :
  Runtime.get_availability now days_ahead = Ok slots ->
  slots = MockCalendarService.get_availability now days_ahead.
Proof.
  unfold Runtime.get_availability.
  destruct (Runtime.collect_slots _ _ _) as [all|m] eqn:Hall; [|discriminate].
  intros Hok. injection Hok as <-.
  by rewrite (collect_slots_returns _ _ _ _ Hall).
Qed.

(** The provider returns exactly when the last day of the horizon is a
    date. *)
Lemma get_availability_in_range now days_ahead :
  Runtime.valid_date now ->
  dt_ordinal now + days_ahead <= Runtime.max_ordinal ->
  Runtime.get_availability now days_ahead
  = Ok (MockCalendarService.get_availability now days_ahead).
Proof.
  intros Hv Hle. unfold Runtime.get_availability, day_range.
  rewrite collect_slots_in_range;
    [reflexivity | assumption | lia | unfold Runtime.valid_date in Hv; lia].
Qed.

Lemma get_availability_overflow now days_ahead :
  Runtime.valid_date now ->
  Runtime.max_ordinal < dt_ordinal now + days_ahead ->
  Runtime.get_availability now days_ahead = Raise "date value out of range".
Proof.
  intros Hv Hgt. unfold Runtime.get_availability, day_range.
  rewrite collect_slots_overflow; [reflexivity|assumption|lia| |].
  - unfold Runtime.valid_date in Hv. lia.
  - unfold Runtime.valid_date in Hv. lia.
Qed.

End RuntimeCalendar.

(** ** Claims and properties of the provider within the date range *)

(** C6, as the code has it: for a clock reading that is a date, every
    [days_ahead >= 1] whose last day is still a date (not after
    9999-12-31) makes [get_availability] return slots that are strictly
    increasing in start time, each ending after it starts and lasting
    exactly [duration_minutes] minutes, [min(2 * days_ahead, 5)] of
    them. *)
Theorem get_availability_within_date_range
  (now : datetime) (days_ahead : Z) :
  Runtime.valid_date now ->
  1 <= days_ahead ->
  dt_ordinal now + days_ahead <= Runtime.max_ordinal ->
  exists slots,
    Runtime.get_availability now days_ahead = Ok slots /\
    StronglySorted CalendarFacts.starts_before slots /\
    Forall CalendarFacts.slot_consistent slots /\
    Z.of_nat (length slots) = Z.min (2 * days_ahead) 5.
Proof.
  intros Hv Hpos Hle.
  exists (MockCalendarService.get_availability now days_ahead).
  split; [by apply RuntimeCalendar.get_availability_in_range|].
  rewrite CalendarLemmas.get_availability_unfold.
  split; [|split].
  - apply CalendarLemmas.StronglySorted_take, CalendarLemmas.slots_from_sorted.
  - apply Forall_take, CalendarLemmas.slots_from_consistent.
  - rewrite length_take, CalendarLemmas.slots_from_length. lia.
Qed.

Lemma get_availability_within_date_range_witness :
  Runtime.valid_date Samples.clock /\
  1 <= 2 /\
  dt_ordinal Samples.clock + 2 <= Runtime.max_ordinal /\
  exists slots,
    Runtime.get_availability Samples.clock 2 = Ok slots /\
    Z.of_nat (length slots) = 4.
Proof.
  assert (Hv : Runtime.valid_date Samples.clock)
    by (unfold Runtime.valid_date, Runtime.max_ordinal; cbn; lia).
  assert (Hle : dt_ordinal Samples.clock + 2 <= Runtime.max_ordinal)
    by (unfold Runtime.max_ordinal; cbn; lia).
  split; [exact Hv|]. split; [lia|]. split; [exact Hle|].
  destruct (get_availability_within_date_range Samples.clock 2 Hv
              ltac:(lia) Hle)
    as (slots & Hrun & _ & _ & Hlen).
  exists slots. split; [exact Hrun|exact Hlen].
Defined.

(** C6 as stated fails: with a clock reading in 2024 and a horizon of
    three million days the loop reaches a day after 9999-12-31 before
    the slice is taken, and the call raises instead of returning a
    list. *)
Lemma get_availability_huge_horizon_raises :
  1 <= 3000000 /\
  Runtime.valid_date Samples.clock /\
  Runtime.get_availability Samples.clock 3000000
  = Raise "date value out of range" /\
  ~ exists slots,
      Runtime.get_availability Samples.clock 3000000 = Ok slots.
Proof.
  assert (Hv : Runtime.valid_date Samples.clock)
    by (unfold Runtime.valid_date, Runtime.max_ordinal; cbn; lia).
  assert (Hraise : Runtime.get_availability Samples.clock 3000000
                   = Raise "date value out of range").
  { apply RuntimeCalendar.get_availability_overflow; [exact Hv|].
    unfold Runtime.max_ordinal; cbn; lia. }
  split; [lia|]. split; [exact Hv|]. split; [exact Hraise|].
  intros [slots Hok]. rewrite Hraise in Hok. discriminate.
Qed.

(** Within the date range the answer no longer changes from
    [days_ahead = 3] on: the two slots of tomorrow, the two of the day
    after, and the morning slot of the third day.  The third afternoon
    and every later day are cut off. *)
Theorem get_availability_saturates_within_date_range
  (now : datetime) (days_ahead : Z) :
  Runtime.valid_date now ->
  3 <= days_ahead ->
  dt_ordinal now + days_ahead <= Runtime.max_ordinal ->
  Runtime.get_availability now days_ahead
  = Ok [ CalendarShape.slot_at now 1 9; CalendarShape.slot_at now 1 14;
         CalendarShape.slot_at now 2 9; CalendarShape.slot_at now 2 14;
         CalendarShape.slot_at now 3 9 ].
Proof.
  intros Hv Hge Hle.
  rewrite RuntimeCalendar.get_availability_in_range by assumption.
  rewrite CalendarLemmas.get_availability_unfold.
  destruct (Z.to_nat days_ahead) as [|[|[|n]]] eqn:Hn; try lia.
  rewrite !CalendarLemmas.slots_from_S, !CalendarExtra.day_slots_slot_at.
  reflexivity.
Qed.

Lemma get_availability_saturates_within_date_range_witness :
  Runtime.valid_date Samples.clock /\
  3 <= 365 /\
  dt_ordinal Samples.clock + 365 <= Runtime.max_ordinal /\
  Runtime.get_availability Samples.clock 365
  = Runtime.get_availability Samples.clock 3.
Proof.
  assert (Hv : Runtime.valid_date Samples.clock)
    by (unfold Runtime.valid_date, Runtime.max_ordinal; cbn; lia).
  assert (H365 : dt_ordinal Samples.clock + 365 <= Runtime.max_ordinal)
    by (unfold Runtime.max_ordinal; cbn; lia).
  assert (H3 : dt_ordinal Samples.clock + 3 <= Runtime.max_ordinal)
    by (unfold Runtime.max_ordinal; cbn; lia).
  split; [exact Hv|]. split; [lia|]. split; [exact H365|].
  rewrite (get_availability_saturates_within_date_range
             Samples.clock 365 Hv ltac:(lia) H365).
  rewrite (get_availability_saturates_within_date_range
             Samples.clock 3 Hv ltac:(lia) H3).
  reflexivity.
Defined.

(** Within the date range a longer horizon only extends the answer: when
    the last day of the longer horizon is still a date, both calls
    return, and the slots for the shorter one are a prefix of the slots
    for the longer one. *)
Theorem get_availability_prefix_monotone_within_date_range
  (now : datetime) (d1 d2 : Z) :
  Runtime.valid_date now ->
  d1 <= d2 ->
  dt_ordinal now + d2 <= Runtime.max_ordinal ->
  exists slots1 slots2,
    Runtime.get_availability now d1 = Ok slots1 /\
    Runtime.get_availability now d2 = Ok slots2 /\
    slots1 `prefix_of` slots2.
Proof.
  intros Hv Hle Hmax.
  exists (MockCalendarService.get_availability now d1),
    (MockCalendarService.get_availability now d2).
  split; [apply RuntimeCalendar.get_availability_in_range; [assumption|lia]|].
  split; [by apply RuntimeCalendar.get_availability_in_range|].
  rewrite !CalendarLemmas.get_availability_unfold.
  destruct (CalendarExtra.slots_from_prefix now 1 (Z.to_nat d1) (Z.to_nat d2))
    as [rest Hrest]; [lia|].
  rewrite Hrest, take_app. by apply prefix_app_r.
Qed.

Lemma get_availability_prefix_monotone_within_date_range_witness :
  Runtime.valid_date Samples.clock /\
  1 <= 2 /\
  dt_ordinal Samples.clock + 2 <= Runtime.max_ordinal /\
  exists slots1 slots2,
    Runtime.get_availability Samples.clock 1 = Ok slots1 /\
    Runtime.get_availability Samples.clock 2 = Ok slots2 /\
    slots1 `prefix_of` slots2.
Proof.
  assert (Hv : Runtime.valid_date Samples.clock)
    by (unfold Runtime.valid_date, Runtime.max_ordinal; cbn; lia).
  assert (Hle : dt_ordinal Samples.clock + 2 <= Runtime.max_ordinal)
    by (unfold Runtime.max_ordinal; cbn; lia).
  split; [exact Hv|]. split; [lia|]. split; [exact Hle|].
  exact (get_availability_prefix_monotone_within_date_range
           Samples.clock 1 2 Hv ltac:(lia) Hle).
Defined.

(** ** The sender-context provider *)

(** A sender who is not in the contact table gets the default context:
    the address as name, importance "medium", relationship "unknown",
    and neither a title nor a company. *)
Theorem get_sender_context_unknown_sender (address : string) :
  address <> "ceo@company.com" ->
  address <> "support@customer.com" ->
  let ctx := MockGmailService.get_sender_context address in
  ctx !! "name" = Some address /\
  ctx !! "importance" = Some "medium" /\
  ctx !! "relationship" = Some "unknown" /\
  ctx !! "title" = None /\
  ctx !! "company" = None.
Proof.
  intros Hceo Hsupport ctx. subst ctx.
  unfold MockGmailService.get_sender_context, MockGmailService.mock_contacts.
  rewrite lookup_insert_ne by congruence.
  rewrite lookup_insert_ne by congruence.
  rewrite lookup_empty. cbn [default].
  repeat split; reflexivity.
Qed.

Lemma get_sender_context_unknown_sender_witness :
  "newsletter@spam.com" <> "ceo@company.com" /\
  "newsletter@spam.com" <> "support@customer.com" /\
  MockGmailService.get_sender_context "newsletter@spam.com" !! "importance"
  = Some "medium" /\
  MockGmailService.get_sender_context "newsletter@spam.com" !! "title" = None.
Proof.
  assert (H1 : "newsletter@spam.com" <> "ceo@company.com") by discriminate.
  assert (H2 : "newsletter@spam.com" <> "support@customer.com") by discriminate.
  split; [exact H1|]. split; [exact H2|].
  destruct (get_sender_context_unknown_sender "newsletter@spam.com" H1 H2)
    as (_ & Hi & _ & Ht & _).
  split; [exact Hi|exact Ht].
Defined.

(** Whoever the sender is, the context has a name, an importance and a
    relationship, so the defaults that the prompts pass to [.get] for
    importance and relationship are never used; the importance is "high"
    or "medium", never "low". *)
Theorem get_sender_context_always_rated (address dflt : string) :
  let ctx := MockGmailService.get_sender_context address in
  is_Some (ctx !! "name") /\
  (dict_get ctx "importance" dflt = "high" \/
   dict_get ctx "importance" dflt = "medium") /\
  (dict_get ctx "relationship" dflt = "key_stakeholder" \/
   dict_get ctx "relationship" dflt = "customer" \/
   dict_get ctx "relationship" dflt = "unknown").
Proof.
  cbn zeta.
  unfold dict_get, MockGmailService.get_sender_context,
    MockGmailService.mock_contacts.
  destruct (decide (address = "ceo@company.com")) as [->|Hceo].
  { rewrite lookup_insert_eq. cbn [default].
    split; [eexists; reflexivity|]. split; [left|left]; reflexivity. }
  rewrite lookup_insert_ne by congruence.
  destruct (decide (address = "support@customer.com")) as [->|Hsupport].
  { rewrite lookup_insert_eq. cbn [default].
    split; [eexists; reflexivity|].
    split; [right|right; left]; reflexivity. }
  rewrite lookup_insert_ne by congruence.
  rewrite lookup_empty. cbn [default].
  split; [eexists; reflexivity|].
  split; [right|right; right]; reflexivity.
Qed.

(** ** The stages, one at a time *)

Lemma ignoredb_spec (c : EmailClassification) :
  ignoredb c = true <-> ignored c.
Proof.
  unfold ignoredb, ignored.
  destruct c as [i u [] r]; destruct i; cbn; split; intros H;
    try reflexivity; try discriminate; auto;
    destruct H as [H|[H|H]]; discriminate.
Qed.

Lemma ignoredb_false (c : EmailClassification) :
  ignoredb c = false <-> ~ ignored c.
Proof.
  rewrite <- ignoredb_spec. destruct (ignoredb c); split; congruence.
Qed.

Lemma mark_executed_eq (n : node) (w : world) :
  mark_executed n w = (Ok tt, mark w n).
Proof. reflexivity. Qed.

Lemma print_eq (line : string) (w : world) :
  print line w = (Ok tt, printed w [line]).
Proof. reflexivity. Qed.

Lemma printed_printed (w : world) (l1 l2 : list string) :
  printed (printed w l1) l2 = printed w (l1 ++ l2).
Proof. unfold printed; cbn. by rewrite <- app_assoc. Qed.

Lemma run_from_step g k n st w st' w1 t w2 :
  node_action g n st (mark w n) = (Ok st', w1) ->
  follow (node_edges g n) st' w1 = (Ok t, w2) ->
  run_from g (S k) n st w
  = match t with
    | END => (Ok st', w2)
    | To n' => run_from g k n' st' w2
    end.
Proof.
  intros Hnode Hedge. cbn [run_from]. unfold bind.
  rewrite mark_executed_eq, Hnode, Hedge. destruct t; reflexivity.
Qed.

Lemma elem_of_executed_app (n : node) (pre post : list node) :
  n ∈ post -> n ∈ (pre ++ post)%list.
Proof. intros H. apply elem_of_app. by right. Qed.

(** ** The driver on an agent object *)

Lemma on_console_eq {A} (c : M A) (a : Runtime.EmailAgent) (w : world)
  (x : result A) (w' : world) :
  c w = (x, w') ->
  Runtime.on_console c {| Runtime.agent := a; Runtime.console := w |}
  = (x, {| Runtime.agent := a; Runtime.console := w' |}).
Proof. intros Hc. unfold Runtime.on_console. cbn. by rewrite Hc. Qed.

Lemma runtime_run_from_step g k n st a w st' a1 w1 t w2 :
  Runtime.node_action g n st
    {| Runtime.agent := a; Runtime.console := mark w n |}
  = (Ok st', {| Runtime.agent := a1; Runtime.console := w1 |}) ->
  follow (Runtime.node_edges g n) st' w1 = (Ok t, w2) ->
  Runtime.run_from g (S k) n st {| Runtime.agent := a; Runtime.console := w |}
  = match t with
    | END => (Ok st', {| Runtime.agent := a1; Runtime.console := w2 |})
    | To n' =>
        Runtime.run_from g k n' st'
          {| Runtime.agent := a1; Runtime.console := w2 |}
    end.
Proof.
  intros Hnode Hedge. cbn [Runtime.run_from]. unfold Runtime.bind.
  rewrite (on_console_eq _ a w (Ok tt) (mark w n) (mark_executed_eq n w)).
  rewrite Hnode.
  rewrite (on_console_eq _ a1 w1 (Ok t) w2 Hedge).
  destruct t; reflexivity.
Qed.

Lemma runtime_run_from_raise g k n st a w m r1 :
  Runtime.node_action g n st
    {| Runtime.agent := a; Runtime.console := mark w n |}
  = (Raise m, r1) ->
  Runtime.run_from g (S k) n st {| Runtime.agent := a; Runtime.console := w |}
  = (Raise m, r1).
Proof.
  intros Hnode. cbn [Runtime.run_from]. unfold Runtime.bind.
  rewrite (on_console_eq _ a w (Ok tt) (mark w n) (mark_executed_eq n w)).
  by rewrite Hnode.
Qed.

Section Properties.

Variable llm_invoke : prompt -> result string.
Variable classification_parse : string -> result EmailClassification.
Variable response_parse : string -> result ResponseDraft.
Variable classification_format_instructions : string.
Variable response_format_instructions : string.
Variable strftime : datetime -> string -> string.
Variable now : datetime.

Local Abbreviation graph :=
  (_build_graph llm_invoke classification_parse response_parse
     classification_format_instructions response_format_instructions
     strftime now).
Local Abbreviation process :=
  (process_email llm_invoke classification_parse response_parse
     classification_format_instructions response_format_instructions
     strftime now).
Local Abbreviation classify :=
  (_classify_email llm_invoke classification_parse
     classification_format_instructions).
Local Abbreviation draft :=
  (_draft_response llm_invoke response_parse
     response_format_instructions strftime).
Local Abbreviation classify_result' :=
  (classify_result llm_invoke classification_parse
     classification_format_instructions).
Local Abbreviation draft_result' :=
  (draft_result llm_invoke response_parse
     response_format_instructions strftime).
Local Abbreviation attempt_c :=
  (classify_attempt llm_invoke classification_parse
     classification_format_instructions).
Local Abbreviation attempt_d :=
  (draft_attempt llm_invoke response_parse
     response_format_instructions strftime).
Local Abbreviation cls :=
  (classification_of llm_invoke classification_parse
     classification_format_instructions).
Local Abbreviation avail :=
  (availability_of llm_invoke classification_parse
     classification_format_instructions now).
Local Abbreviation drf :=
  (draft_of llm_invoke classification_parse response_parse
     classification_format_instructions response_format_instructions
     strftime now).
Local Abbreviation classified :=
  (classified_state llm_invoke classification_parse
     classification_format_instructions).
Local Abbreviation drafted :=
  (drafted_state llm_invoke classification_parse response_parse
     classification_format_instructions response_format_instructions
     strftime now).
Local Abbreviation sent :=
  (sent_state llm_invoke classification_parse response_parse
     classification_format_instructions response_format_instructions
     strftime now).
Local Abbreviation sent_w :=
  (sent_world llm_invoke classification_parse response_parse
     classification_format_instructions response_format_instructions
     strftime now).

Lemma enrich_sender_context_eq st w :
  _enrich_sender_context st w = (Ok (enrich_result st), w).
Proof. reflexivity. Qed.

Lemma classify_email_eq st sc w :
  sender_context st = Some sc ->
  classify st w = (Ok (classify_result' st sc), w).
Proof.
  intros Hsc.
  unfold _classify_email, classify_result, classify_attempt,
    bind, try_except, lift, not_none, ret.
  rewrite Hsc.
  destruct (llm_invoke _) as [response|m]; [|reflexivity].
  destruct (classification_parse response); reflexivity.
Qed.

Lemma check_calendar_availability_eq st c w :
  classification st = Some c ->
  _check_calendar_availability now st w = (Ok (calendar_result now st c), w).
Proof.
  intros Hc.
  unfold _check_calendar_availability, calendar_result, bind, not_none, ret.
  rewrite Hc. destruct (decide (intent c = MEETING_REQUEST)); reflexivity.
Qed.

Lemma draft_response_eq st c sc w :
  classification st = Some c ->
  sender_context st = Some sc ->
  draft st w = (Ok (draft_result' st c sc), w).
Proof.
  intros Hc Hsc.
  unfold _draft_response, draft_result, draft_attempt,
    bind, try_except, lift, not_none, ret.
  rewrite Hc, Hsc.
  destruct (llm_invoke _) as [response|m]; [|reflexivity].
  destruct (response_parse response); reflexivity.
Qed.

Lemma human_review_eq st d w :
  response_draft st = Some d ->
  _human_review st w = (Ok (review_result st d), printed w (review_lines d)).
Proof.
  intros Hd. unfold _human_review, bind, not_none, ret. rewrite Hd.
  cbv zeta. rewrite !print_eq, !printed_printed. reflexivity.
Qed.

Lemma send_email_eq st w :
  _send_email st w = (Ok (send_result st), printed w (send_lines st)).
Proof.
  unfold _send_email, bind, ret.
  rewrite !print_eq, !printed_printed. reflexivity.
Qed.

(** *** The routing functions *)

Lemma should_respond_eq st c w :
  classification st = Some c ->
  _should_respond st w
  = (Ok (if ignoredb c then "ignore" else "respond"), w).
Proof.
  intros Hc. unfold _should_respond, ignoredb, bind, not_none, ret.
  rewrite Hc.
  destruct (requires_response c); cbn [negb orb]; [|reflexivity].
  destruct (bool_decide _); reflexivity.
Qed.

Lemma needs_calendar_eq st c w :
  classification st = Some c ->
  _needs_calendar st w
  = (Ok (if decide (intent c = MEETING_REQUEST)
         then "calendar_needed" else "no_calendar"), w).
Proof.
  intros Hc. unfold _needs_calendar, bind, not_none, ret. rewrite Hc.
  destruct (decide _); reflexivity.
Qed.

Lemma human_approval_eq st w :
  _human_approval st w
  = (Ok (if should_send st then "approved" else "rejected"), w).
Proof. reflexivity. Qed.


(** ** The driver on the workflow graph *)

Lemma step_enrich k st w :
  run_from graph (S k) enrich_sender st w
  = run_from graph k classify_email (enrich_result st) (mark w enrich_sender).
Proof.
  erewrite run_from_step;
    [| apply enrich_sender_context_eq | reflexivity].
  reflexivity.
Qed.

Lemma step_classify k st sc c w :
  sender_context st = Some sc ->
  classification (classify_result' st sc) = Some c ->
  run_from graph (S k) classify_email st w
  = if ignoredb c
    then (Ok (classify_result' st sc), mark w classify_email)
    else run_from graph k check_calendar (classify_result' st sc)
           (mark w classify_email).
Proof.
  intros Hsc Hc.
  rewrite (run_from_step graph k classify_email st w
             (classify_result' st sc) (mark w classify_email)
             (if ignoredb c then END else To check_calendar)
             (mark w classify_email)).
  - destruct (ignoredb c); reflexivity.
  - apply classify_email_eq, Hsc.
  - cbn [node_edges _build_graph follow]. unfold bind.
    rewrite (should_respond_eq _ c) by exact Hc.
    destruct (ignoredb c); reflexivity.
Qed.

Lemma step_calendar k st c w :
  classification st = Some c ->
  run_from graph (S k) check_calendar st w
  = run_from graph k draft_response (calendar_result now st c)
      (mark w check_calendar).
Proof.
  intros Hc.
  assert (Hc' : classification (calendar_result now st c) = Some c).
  { unfold calendar_result. destruct (decide _); exact Hc. }
  rewrite (run_from_step graph k check_calendar st w
             (calendar_result now st c) (mark w check_calendar)
             (To draft_response) (mark w check_calendar)).
  - reflexivity.
  - apply check_calendar_availability_eq, Hc.
  - cbn [node_edges _build_graph follow]. unfold bind.
    rewrite (needs_calendar_eq _ c) by exact Hc'.
    destruct (decide _); reflexivity.
Qed.

Lemma step_draft k st c sc w :
  classification st = Some c ->
  sender_context st = Some sc ->
  run_from graph (S k) draft_response st w
  = run_from graph k human_review (draft_result' st c sc)
      (mark w draft_response).
Proof.
  intros Hc Hsc.
  rewrite (run_from_step graph k draft_response st w
             (draft_result' st c sc) (mark w draft_response)
             (To human_review) (mark w draft_response)).
  - reflexivity.
  - apply draft_response_eq; assumption.
  - reflexivity.
Qed.

Lemma step_review k st d w :
  response_draft st = Some d ->
  run_from graph (S k) human_review st w
  = run_from graph k send_email (review_result st d)
      (printed (mark w human_review) (review_lines d)).
Proof.
  intros Hd.
  rewrite (run_from_step graph k human_review st w
             (review_result st d)
             (printed (mark w human_review) (review_lines d))
             (To send_email)
             (printed (mark w human_review) (review_lines d))).
  - reflexivity.
  - apply human_review_eq, Hd.
  - reflexivity.
Qed.

Lemma step_send k st w :
  run_from graph (S k) send_email st w
  = (Ok (send_result st), printed (mark w send_email) (send_lines st)).
Proof.
  erewrite run_from_step;
    [| apply send_email_eq | reflexivity].
  reflexivity.
Qed.


(** ** A whole run *)

(** *** The state after the classify stage *)

Lemma classified_classification e :
  classification (classified e) = Some (cls e).
Proof.
  unfold classified_state, classification_of, classify_result. cbn [email enrich_result append_message set_sender_context initial_state].
  destruct (classify_attempt _ _ _ _ _); reflexivity.
Qed.

Lemma classified_error e :
  error (classified e)
  = match attempt_c e (sender_ctx e) with
    | Ok _ => None
    | Raise m => Some ("Classification failed: " ++ m)
    end.
Proof.
  unfold classified_state, classify_result. cbn [email enrich_result append_message set_sender_context initial_state].
  destruct (classify_attempt _ _ _ _ _); reflexivity.
Qed.

Lemma classified_untouched e :
  email (classified e) = e /\
  sender_context (classified e) = Some (sender_ctx e) /\
  calendar_availability (classified e) = None /\
  response_draft (classified e) = None /\
  final_response (classified e) = None /\
  should_send (classified e) = false.
Proof.
  unfold classified_state, classify_result. cbn [email enrich_result append_message set_sender_context initial_state].
  destruct (classify_attempt _ _ _ _ _); repeat split; reflexivity.
Qed.

(** *** The state after the calendar and the drafting stages *)

Lemma calendar_result_fields e :
  let st := calendar_result now (classified e) (cls e) in
  email st = e /\
  sender_context st = Some (sender_ctx e) /\
  classification st = Some (cls e) /\
  calendar_availability st = avail e /\
  response_draft st = None /\
  final_response st = None /\
  should_send st = false /\
  error st = error (classified e).
Proof.
  destruct (classified_untouched e) as (He & Hsc & Hcal & Hd & Hf & Hs).
  pose proof (classified_classification e) as Hc.
  unfold calendar_result, availability_of.
  destruct (decide (intent (cls e) = MEETING_REQUEST));
    cbn; repeat split; assumption || reflexivity.
Qed.

Lemma drafted_fields e :
  email (drafted e) = e /\
  classification (drafted e) = Some (cls e) /\
  calendar_availability (drafted e) = avail e /\
  response_draft (drafted e) = Some (drf e) /\
  final_response (drafted e) = None.
Proof.
  destruct (calendar_result_fields e)
    as (He & Hsc & Hc & Hcal & Hd & Hf & Hs & Herr).
  unfold drafted_state, draft_of, draft_result.
  rewrite He, Hcal.
  destruct (draft_attempt _ _ _ _ _ _ _ _);
    cbn; repeat split; assumption || reflexivity.
Qed.

Lemma drafted_error e :
  error (drafted e)
  = match attempt_d e (cls e) (sender_ctx e) (avail e) with
    | Ok _ => error (classified e)
    | Raise m => Some ("Response drafting failed: " ++ m)
    end.
Proof.
  destruct (calendar_result_fields e)
    as (He & Hsc & Hc & Hcal & Hd & Hf & Hs & Herr).
  unfold drafted_state, draft_result.
  rewrite He, Hcal.
  destruct (draft_attempt _ _ _ _ _ _ _ _); cbn; [assumption|reflexivity].
Qed.

(** *** The final state of a run that answers *)

Lemma sent_fields e :
  email (sent e) = e /\
  classification (sent e) = Some (cls e) /\
  calendar_availability (sent e) = avail e /\
  response_draft (sent e) = Some (drf e) /\
  final_response (sent e) = Some (draft_content (drf e)) /\
  should_send (sent e) = true /\
  error (sent e) = error (drafted e).
Proof.
  destruct (drafted_fields e) as (He & Hc & Hcal & Hd & Hf).
  unfold sent_state, send_result, review_result.
  cbn. repeat split; assumption || reflexivity.
Qed.

Lemma ignored_world_executed w0 :
  executed (ignored_world w0)
  = (executed w0 ++ [enrich_sender; classify_email])%list.
Proof. unfold ignored_world, mark; cbn. by rewrite <- app_assoc. Qed.

Lemma sent_world_executed e w0 :
  executed (sent_w e w0)
  = (executed w0 ++ [enrich_sender; classify_email; check_calendar;
                     draft_response; human_review; send_email])%list.
Proof.
  unfold sent_world, ignored_world, mark, printed; cbn.
  by rewrite <- !app_assoc.
Qed.

(** *** Every run ends, in one of two ways *)

Lemma process_email_eq e w0 :
  process e w0
  = if ignoredb (cls e)
    then (Ok (classified e), ignored_world w0)
    else (Ok (sent e), sent_w e w0).
Proof.
  unfold process_email, invoke, recursion_limit.
  cbn [entry_point _build_graph].
  rewrite step_enrich.
  destruct (classified_untouched e) as (He & Hsc & _).
  rewrite (step_classify _ _ (sender_ctx e) (cls e));
    [| reflexivity | apply classified_classification ].
  fold (classified e). fold (ignored_world w0).
  destruct (ignoredb (cls e)); [reflexivity|].
  rewrite (step_calendar _ _ (cls e))
    by apply classified_classification.
  destruct (calendar_result_fields e)
    as (He' & Hsc' & Hc' & _).
  rewrite (step_draft _ _ (cls e) (sender_ctx e))
    by assumption.
  fold (drafted e).
  destruct (drafted_fields e) as (_ & _ & _ & Hd & _).
  rewrite (step_review _ _ (drf e)) by exact Hd.
  rewrite step_send. reflexivity.
Qed.


(** * The claims *)

(** The [try] block of the classify stage raises exactly when the model
    call raises or the parse of its output raises. *)
Lemma classify_attempt_raise e sc m :
  attempt_c e sc = Raise m <->
  llm_invoke (classification_prompt classification_format_instructions e sc)
    = Raise m \/
  exists response,
    llm_invoke (classification_prompt classification_format_instructions e sc)
      = Ok response /\
    classification_parse response = Raise m.
Proof.
  unfold classify_attempt.
  destruct (llm_invoke _) as [response|m']; split.
  - intros H. right. exists response. split; [reflexivity|exact H].
  - intros [H|(r & Hr & H)]; [discriminate|]. congruence.
  - intros H. left. congruence.
  - intros [H|(r & Hr & H)]; [congruence|discriminate].
Qed.

Lemma draft_attempt_raise e c sc av m :
  attempt_d e c sc av = Raise m <->
  llm_invoke (response_prompt response_format_instructions strftime e c sc av)
    = Raise m \/
  exists response,
    llm_invoke (response_prompt response_format_instructions strftime e c sc av)
      = Ok response /\
    response_parse response = Raise m.
Proof.
  unfold draft_attempt.
  destruct (llm_invoke _) as [response|m']; split.
  - intros H. right. exists response. split; [reflexivity|exact H].
  - intros [H|(r & Hr & H)]; [discriminate|]. congruence.
  - intros H. left. congruence.
  - intros [H|(r & Hr & H)]; [congruence|discriminate].
Qed.




(** C3: when the model call or the parse in the classify stage raises,
    the stage still returns: it records a non-empty error, stores the
    fallback classification, and the driver goes on to the calendar
    stage. *)
Theorem classify_failure_falls_back
  (st : EmailAgentState) (sc : gmap string string) (m : string) (w : world) :
  sender_context st = Some sc ->
  attempt_c (email st) sc = Raise m ->
  exists st',
    classify st w = (Ok st', w) /\
    error st' = Some ("Classification failed: " ++ m) /\
    "Classification failed: " ++ m <> "" /\
    classification st'
    = Some {| intent := INFORMATION_REQUEST;
              urgency := MEDIUM;
              requires_response := true;
              reasoning := "Failed to classify, using default" |} /\
    follow (node_edges graph classify_email) st' w
    = (Ok (To check_calendar), w) /\
    forall k,
      run_from graph (S k) classify_email st w
      = run_from graph k check_calendar st' (mark w classify_email).
Proof.
  intros Hsc Hfail.
  exists (classify_result' st sc).
  assert (Hres : classify_result' st sc
                 = set_classification
                     (set_error st ("Classification failed: " ++ m))
                     fallback_classification).
  { unfold classify_result. by rewrite Hfail. }
  split; [by apply classify_email_eq|].
  rewrite Hres.
  split; [reflexivity|]. split; [discriminate|]. split; [reflexivity|].
  split; [reflexivity|].
  intros k. rewrite <- Hres.
  rewrite (step_classify k st sc fallback_classification w Hsc);
    [reflexivity | by rewrite Hres].
Qed.

(** C4: when the model call or the parse in the drafting stage raises,
    the stage still returns: it records a non-empty error, stores the
    fallback draft ("Re: " and the original subject, the fixed body,
    tone "professional"), and the driver goes on to the review stage. *)
Theorem draft_failure_falls_back
  (st : EmailAgentState) (c : EmailClassification)
  (sc : gmap string string) (m : string) (w : world) :
  classification st = Some c ->
  sender_context st = Some sc ->
  attempt_d (email st) c sc (calendar_availability st) = Raise m ->
  exists st',
    draft st w = (Ok st', w) /\
    error st' = Some ("Response drafting failed: " ++ m) /\
    "Response drafting failed: " ++ m <> "" /\
    response_draft st'
    = Some {| draft_subject := "Re: " ++ subject (email st);
              draft_content :=
                "Thank you for your email. I'll review this and get back to you soon.";
              tone := "professional";
              includes_meeting_times := false;
              proposed_times := [] |} /\
    follow (node_edges graph draft_response) st' w
    = (Ok (To human_review), w) /\
    forall k,
      run_from graph (S k) draft_response st w
      = run_from graph k human_review st' (mark w draft_response).
Proof.
  intros Hc Hsc Hfail.
  exists (draft_result' st c sc).
  assert (Hres : draft_result' st c sc
                 = set_response_draft
                     (set_error st ("Response drafting failed: " ++ m))
                     (fallback_draft (email st))).
  { unfold draft_result. by rewrite Hfail. }
  split; [by apply draft_response_eq|].
  rewrite Hres.
  split; [reflexivity|]. split; [discriminate|]. split; [reflexivity|].
  split; [reflexivity|].
  intros k. rewrite <- Hres. by apply step_draft.
Qed.

(** C5: the review stage sets [should_send] to true and copies the
    content of the draft into [final_response], whatever the state; the
    edge out of the review stage leads to the send stage exactly when
    [should_send] is true, so the send stage runs next. *)
Theorem review_approves_and_routes_to_send
  (st : EmailAgentState) (d : ResponseDraft) :
  response_draft st = Some d ->
  exists st',
    (forall w, exists w', _human_review st w = (Ok st', w')) /\
    should_send st' = true /\
    final_response st' = Some (draft_content d) /\
    (forall s w, exists t,
        follow (node_edges graph human_review) s w = (Ok t, w) /\
        (t = To send_email <-> should_send s = true) /\
        (t = END <-> should_send s = false)) /\
    forall k w, exists w',
      run_from graph (S k) human_review st w
      = run_from graph k send_email st' w'.
Proof.
  intros Hd. exists (review_result st d).
  split; [|split; [reflexivity|split; [reflexivity|split]]].
  - intros w. eexists. by apply human_review_eq.
  - intros s w.
    exists (if should_send s then To send_email else END).
    split.
    + cbn [node_edges _build_graph follow]. unfold bind.
      rewrite human_approval_eq. by destruct (should_send s).
    + destruct (should_send s); split; split; congruence.
  - intros k w. eexists. by apply step_review.
Qed.


(** C9: when both the classify stage and the drafting stage fail, the
    classify stage first records its own message, and the final state
    carries the drafting message alone. *)
Theorem error_holds_the_last_failure (e : EmailData) (m1 m2 : string) :
  attempt_c e (MockGmailService.get_sender_context (sender e)) = Raise m1 ->
  attempt_d e fallback_classification
    (MockGmailService.get_sender_context (sender e)) None = Raise m2 ->
  exists st0 st1 final w,
    _enrich_sender_context (initial_state e) empty_world
    = (Ok st0, empty_world) /\
    classify st0 empty_world = (Ok st1, empty_world) /\
    error st1 = Some ("Classification failed: " ++ m1) /\
    process e empty_world = (Ok final, w) /\
    draft_response ∈ executed w /\
    error final = Some ("Response drafting failed: " ++ m2).
Proof.
  intros H1 H2.
  assert (Hcls : cls e = fallback_classification).
  { unfold classification_of, sender_ctx. by rewrite H1. }
  assert (Hav : avail e = None).
  { unfold availability_of. rewrite Hcls. reflexivity. }
  exists (enrich_result (initial_state e)), (classified e).
  rewrite process_email_eq, Hcls. cbn [ignoredb fallback_classification
    requires_response negb orb intent].
  change (bool_decide (INFORMATION_REQUEST ∈ [SPAM; NEWSLETTER])) with false.
  cbn iota.
  exists (sent e), (sent_w e empty_world).
  split; [reflexivity|].
  split; [by apply classify_email_eq|].
  split.
  { rewrite classified_error. unfold sender_ctx. by rewrite H1. }
  split; [reflexivity|].
  split.
  { rewrite sent_world_executed. apply elem_of_executed_app.
    apply list_elem_of_In. cbn. auto. }
  destruct (sent_fields e) as (_ & _ & _ & _ & _ & _ & Herr).
  rewrite Herr, drafted_error, Hcls, Hav. unfold sender_ctx. by rewrite H2.
Qed.


(** * Beyond the claims: whole runs *)


(** When the classify stage fails, the e-mail is answered whatever it
    was (a newsletter or spam included): all six stages run, no calendar
    lookup is made, and the send flag is set. *)
Theorem failed_classification_is_always_answered
  (e : EmailData) (m : string) (w0 : world) :
  attempt_c e (MockGmailService.get_sender_context (sender e)) = Raise m ->
  exists final w d,
    process e w0 = (Ok final, w) /\
    executed w
    = (executed w0 ++ [enrich_sender; classify_email; check_calendar;
                       draft_response; human_review; send_email])%list /\
    calendar_availability final = None /\
    response_draft final = Some d /\
    final_response final = Some (draft_content d) /\
    should_send final = true.
Proof.
  intros Hfail.
  assert (Hcls : cls e = fallback_classification).
  { unfold classification_of, sender_ctx. by rewrite Hfail. }
  rewrite process_email_eq, Hcls.
  change (ignoredb fallback_classification) with false. cbn iota.
  exists (sent e), (sent_w e w0), (drf e).
  destruct (sent_fields e) as (_ & _ & Hcal & Hd & Hf & Hs & _).
  split; [reflexivity|]. split; [apply sent_world_executed|].
  split; [|by repeat split].
  rewrite Hcal. unfold availability_of. by rewrite Hcls.
Qed.



(** * Beyond the claims: stages and edges *)

(** Every edge of the graph leads forward.  From a state that carries a
    classification, following the edge out of any node succeeds (every
    label a routing function returns is in its table), leaves the world
    alone, and ends the run or leads to a later stage of the pipeline; out
    of the calendar stage both labels lead to the drafting stage. *)
Theorem edges_lead_forward
  (n : node) (st : EmailAgentState) (c : EmailClassification) (w : world) :
  classification st = Some c ->
  exists t,
    follow (node_edges graph n) st w = (Ok t, w) /\
    match t with
    | To n' => (stage_index n < stage_index n')%nat
    | END => n = classify_email \/ n = human_review \/ n = send_email
    end /\
    (n = check_calendar -> t = To draft_response).
Proof.
  intros Hc. destruct n; cbn [node_edges _build_graph follow]; unfold bind.
  - exists (To classify_email). split; [reflexivity|]. split; [cbn; lia|discriminate].
  - rewrite (should_respond_eq st c w Hc).
    destruct (ignoredb c).
    + exists END. split; [reflexivity|]. split; [auto|discriminate].
    + exists (To check_calendar). split; [reflexivity|].
      split; [cbn; lia|discriminate].
  - rewrite (needs_calendar_eq st c w Hc).
    exists (To draft_response).
    split; [by destruct (decide _)|]. split; [cbn; lia|reflexivity].
  - exists (To human_review). split; [reflexivity|]. split; [cbn; lia|discriminate].
  - rewrite human_approval_eq. destruct (should_send st).
    + exists (To send_email). split; [reflexivity|]. split; [cbn; lia|discriminate].
    + exists END. split; [reflexivity|]. split; [auto|discriminate].
  - exists END. split; [reflexivity|]. split; [auto|discriminate].
Qed.

(** What a stage can touch.  A stage that returns keeps the e-mail, only
    appends to the audit log and to the console, and never clears a
    recorded error; each of the other keys is written by one stage only:
    the sender context by the enrich stage, the classification by the
    classify stage, the slots by the calendar stage, the draft by the
    drafting stage, the final response and the send flag by the review
    stage. *)
Theorem stage_writes_only_its_own_keys
  (n : node) (st st' : EmailAgentState) (w w' : world) :
  node_action graph n st w = (Ok st', w') ->
  email st' = email st /\
  messages st `prefix_of` messages st' /\
  stdout w `prefix_of` stdout w' /\
  executed w' = executed w /\
  (error st <> None -> error st' <> None) /\
  (n <> enrich_sender -> sender_context st' = sender_context st) /\
  (n <> classify_email -> classification st' = classification st) /\
  (n <> check_calendar -> calendar_availability st' = calendar_availability st) /\
  (n <> draft_response -> response_draft st' = response_draft st) /\
  (n <> human_review ->
     final_response st' = final_response st /\
     should_send st' = should_send st).
Proof.
  intros Hrun.
  assert (Hpre : forall (A : Type) (l : list A) (x : A), l `prefix_of` (l ++ [x])%list).
  { intros A l x. by apply prefix_app_r. }
  destruct n; cbn [node_action _build_graph] in Hrun.
  - rewrite enrich_sender_context_eq in Hrun. injection Hrun as <- <-.
    cbn. repeat split; auto; congruence.
  - destruct (sender_context st) as [sc|] eqn:Hsc.
    + rewrite (classify_email_eq st sc w Hsc) in Hrun.
      injection Hrun as <- <-. unfold classify_result.
      destruct (classify_attempt _ _ _ _ _); cbn;
        repeat split; auto; congruence.
    + unfold _classify_email, bind, not_none in Hrun.
      rewrite Hsc in Hrun. discriminate.
  - destruct (classification st) as [c|] eqn:Hc.
    + rewrite (check_calendar_availability_eq st c w Hc) in Hrun.
      injection Hrun as <- <-. unfold calendar_result.
      destruct (decide _); cbn; repeat split; auto; congruence.
    + unfold _check_calendar_availability, bind, not_none in Hrun.
      rewrite Hc in Hrun. discriminate.
  - destruct (classification st) as [c|] eqn:Hc;
      [destruct (sender_context st) as [sc|] eqn:Hsc|].
    + rewrite (draft_response_eq st c sc w Hc Hsc) in Hrun.
      injection Hrun as <- <-. unfold draft_result.
      destruct (draft_attempt _ _ _ _ _ _ _ _); cbn;
        repeat split; auto; congruence.
    + unfold _draft_response, bind, not_none in Hrun.
      rewrite Hc, Hsc in Hrun. discriminate.
    + unfold _draft_response, bind, not_none in Hrun.
      rewrite Hc in Hrun. discriminate.
  - destruct (response_draft st) as [d|] eqn:Hd.
    + rewrite (human_review_eq st d w Hd) in Hrun.
      injection Hrun as <- <-. cbn.
      repeat split; auto; try congruence. by apply prefix_app_r.
    + unfold _human_review, bind, not_none in Hrun.
      rewrite Hd in Hrun. cbv zeta in Hrun.
      rewrite !print_eq in Hrun. discriminate.
  - rewrite send_email_eq in Hrun. injection Hrun as <- <-. cbn.
    repeat split; auto; try congruence. by apply prefix_app_r.
Qed.

(** * Beyond the claims: what the model is shown *)

(** For a sender outside the contact table the classification prompt
    says "Unknown" for title and company, with importance "medium" and
    relationship "unknown", whatever [sender_title] and [sender_company]
    the e-mail itself carries. *)
Theorem classification_prompt_of_unknown_sender (e : EmailData) :
  sender e <> "ceo@company.com" ->
  sender e <> "support@customer.com" ->
  classification_prompt classification_format_instructions e
    (MockGmailService.get_sender_context (sender e))
  = CLASSIFICATION_PROMPT classification_format_instructions
      (sender e) "Unknown" "Unknown" (subject e) (content e)
      "medium" "unknown".
Proof.
  intros Hceo Hsupport.
  unfold classification_prompt, dict_get,
    MockGmailService.get_sender_context, MockGmailService.mock_contacts.
  rewrite lookup_insert_ne by congruence.
  rewrite lookup_insert_ne by congruence.
  rewrite lookup_empty. reflexivity.
Qed.


(** * The agent object and the date range: whole runs *)

Local Abbreviation rt_graph :=
  (Runtime._build_graph llm_invoke classification_parse response_parse
     classification_format_instructions response_format_instructions
     strftime now).
Local Abbreviation rt_process :=
  (Runtime.process_email llm_invoke classification_parse response_parse
     classification_format_instructions response_format_instructions
     strftime now).
Local Abbreviation fresh w :=
  {| Runtime.agent := Runtime.EmailAgent_init; Runtime.console := w |}.

Lemma runtime_step_enrich k st w :
  Runtime.run_from rt_graph (S k) enrich_sender st (fresh w)
  = Runtime.run_from rt_graph k classify_email (enrich_result st)
      (fresh (mark w enrich_sender)).
Proof.
  rewrite (runtime_run_from_step rt_graph k enrich_sender st _ w
             (enrich_result st) Runtime.EmailAgent_init (mark w enrich_sender)
             (To classify_email) (mark w enrich_sender));
    reflexivity.
Qed.

Lemma runtime_step_classify k st sc c w :
  sender_context st = Some sc ->
  classification (classify_result' st sc) = Some c ->
  Runtime.run_from rt_graph (S k) classify_email st (fresh w)
  = if ignoredb c
    then (Ok (classify_result' st sc), fresh (mark w classify_email))
    else Runtime.run_from rt_graph k check_calendar (classify_result' st sc)
           (fresh (mark w classify_email)).
Proof.
  intros Hsc Hc.
  rewrite (runtime_run_from_step rt_graph k classify_email st _ w
             (classify_result' st sc) Runtime.EmailAgent_init
             (mark w classify_email)
             (if ignoredb c then END else To check_calendar)
             (mark w classify_email)).
  - destruct (ignoredb c); reflexivity.
  - cbn [Runtime.node_action Runtime._build_graph].
    apply on_console_eq. by apply classify_email_eq.
  - cbn [Runtime.node_edges Runtime._build_graph follow]. unfold bind.
    rewrite (should_respond_eq _ c) by exact Hc.
    destruct (ignoredb c); reflexivity.
Qed.

(** The calendar stage when the lookup is not made or returns. *)
Lemma runtime_check_calendar_returns st c w :
  classification st = Some c ->
  (intent c = MEETING_REQUEST ->
   exists slots,
     Runtime.get_availability now MockCalendarService.default_days_ahead
     = Ok slots) ->
  Runtime._check_calendar_availability now st (fresh w)
  = (Ok (calendar_result now st c), fresh w).
Proof.
  intros Hc Hlookup.
  unfold Runtime._check_calendar_availability, Runtime.bind, calendar_result.
  rewrite (on_console_eq _ _ w (Ok c) w)
    by (unfold not_none; by rewrite Hc).
  destruct (decide (intent c = MEETING_REQUEST)) as [Hm|Hm]; [|reflexivity].
  destruct (Hlookup Hm) as [slots Hslots].
  rewrite (on_console_eq _ _ w (Ok slots) w)
    by (unfold lift; by rewrite Hslots).
  by rewrite (RuntimeCalendar.get_availability_returns _ _ _ Hslots).
Qed.

(** The calendar stage when the lookup raises. *)
Lemma runtime_check_calendar_raises st c w m :
  classification st = Some c ->
  intent c = MEETING_REQUEST ->
  Runtime.get_availability now MockCalendarService.default_days_ahead
  = Raise m ->
  Runtime._check_calendar_availability now st (fresh w) = (Raise m, fresh w).
Proof.
  intros Hc Hm Hraise.
  unfold Runtime._check_calendar_availability, Runtime.bind.
  rewrite (on_console_eq _ _ w (Ok c) w)
    by (unfold not_none; by rewrite Hc).
  rewrite decide_True by exact Hm.
  rewrite (on_console_eq _ _ w (Raise m) w)
    by (unfold lift; by rewrite Hraise).
  reflexivity.
Qed.

Lemma runtime_step_calendar k st c w :
  classification st = Some c ->
  (intent c = MEETING_REQUEST ->
   exists slots,
     Runtime.get_availability now MockCalendarService.default_days_ahead
     = Ok slots) ->
  Runtime.run_from rt_graph (S k) check_calendar st (fresh w)
  = Runtime.run_from rt_graph k draft_response (calendar_result now st c)
      (fresh (mark w check_calendar)).
Proof.
  intros Hc Hlookup.
  assert (Hc' : classification (calendar_result now st c) = Some c).
  { unfold calendar_result. destruct (decide _); exact Hc. }
  rewrite (runtime_run_from_step rt_graph k check_calendar st _ w
             (calendar_result now st c) Runtime.EmailAgent_init
             (mark w check_calendar)
             (To draft_response) (mark w check_calendar)).
  - reflexivity.
  - cbn [Runtime.node_action Runtime._build_graph].
    by apply runtime_check_calendar_returns.
  - cbn [Runtime.node_edges Runtime._build_graph follow]. unfold bind.
    rewrite (needs_calendar_eq _ c) by exact Hc'.
    destruct (decide _); reflexivity.
Qed.

Lemma runtime_step_draft k st c sc w :
  classification st = Some c ->
  sender_context st = Some sc ->
  Runtime.run_from rt_graph (S k) draft_response st (fresh w)
  = Runtime.run_from rt_graph k human_review (draft_result' st c sc)
      (fresh (mark w draft_response)).
Proof.
  intros Hc Hsc.
  rewrite (runtime_run_from_step rt_graph k draft_response st _ w
             (draft_result' st c sc) Runtime.EmailAgent_init
             (mark w draft_response)
             (To human_review) (mark w draft_response)).
  - reflexivity.
  - cbn [Runtime.node_action Runtime._build_graph].
    apply on_console_eq. by apply draft_response_eq.
  - reflexivity.
Qed.

Lemma runtime_step_review k st d w :
  response_draft st = Some d ->
  Runtime.run_from rt_graph (S k) human_review st (fresh w)
  = Runtime.run_from rt_graph k send_email (review_result st d)
      (fresh (printed (mark w human_review) (review_lines d))).
Proof.
  intros Hd.
  rewrite (runtime_run_from_step rt_graph k human_review st _ w
             (review_result st d) Runtime.EmailAgent_init
             (printed (mark w human_review) (review_lines d))
             (To send_email)
             (printed (mark w human_review) (review_lines d))).
  - reflexivity.
  - cbn [Runtime.node_action Runtime._build_graph].
    apply on_console_eq. by apply human_review_eq.
  - reflexivity.
Qed.

Lemma runtime_step_send k st w :
  Runtime.run_from rt_graph (S k) send_email st (fresh w)
  = (Ok (send_result st), fresh (printed (mark w send_email) (send_lines st))).
Proof.
  rewrite (runtime_run_from_step rt_graph k send_email st _ w
             (send_result st) Runtime.EmailAgent_init
             (printed (mark w send_email) (send_lines st))
             END (printed (mark w send_email) (send_lines st))).
  - reflexivity.
  - cbn [Runtime.node_action Runtime._build_graph].
    apply on_console_eq. apply send_email_eq.
  - reflexivity.
Qed.

(** A run on a freshly built agent that answers or ignores the e-mail:
    the calendar lookup, if it is made, returns. *)
Lemma runtime_process_email_returns e w0 :
  (ignoredb (cls e) = false -> intent (cls e) = MEETING_REQUEST ->
   exists slots,
     Runtime.get_availability now MockCalendarService.default_days_ahead
     = Ok slots) ->
  rt_process e (fresh w0)
  = if ignoredb (cls e)
    then (Ok (classified e), fresh (ignored_world w0))
    else (Ok (sent e), fresh (sent_w e w0)).
Proof.
  intros Hlookup.
  unfold Runtime.process_email, Runtime.invoke, recursion_limit.
  cbn [Runtime.entry_point Runtime._build_graph].
  rewrite runtime_step_enrich.
  destruct (classified_untouched e) as (He & Hsc & _).
  rewrite (runtime_step_classify _ _ (sender_ctx e) (cls e));
    [| reflexivity | apply classified_classification ].
  fold (classified e). fold (ignored_world w0).
  destruct (ignoredb (cls e)); [reflexivity|].
  rewrite (runtime_step_calendar _ _ (cls e));
    [| apply classified_classification | by apply Hlookup ].
  destruct (calendar_result_fields e) as (He' & Hsc' & Hc' & _).
  rewrite (runtime_step_draft _ _ (cls e) (sender_ctx e)) by assumption.
  fold (drafted e).
  destruct (drafted_fields e) as (_ & _ & _ & Hd & _).
  rewrite (runtime_step_review _ _ (drf e)) by exact Hd.
  rewrite runtime_step_send. reflexivity.
Qed.

(** A run on a freshly built agent whose calendar lookup raises: the
    exception leaves [process_email] after three stages. *)
Lemma runtime_process_email_raises e w0 m :
  ignoredb (cls e) = false ->
  intent (cls e) = MEETING_REQUEST ->
  Runtime.get_availability now MockCalendarService.default_days_ahead
  = Raise m ->
  rt_process e (fresh w0)
  = (Raise m, fresh (mark (ignored_world w0) check_calendar)).
Proof.
  intros Hig Hm Hraise.
  unfold Runtime.process_email, Runtime.invoke, recursion_limit.
  cbn [Runtime.entry_point Runtime._build_graph].
  rewrite runtime_step_enrich.
  rewrite (runtime_step_classify _ _ (sender_ctx e) (cls e));
    [| reflexivity | apply classified_classification ].
  fold (classified e). fold (ignored_world w0). rewrite Hig.
  apply runtime_run_from_raise.
  cbn [Runtime.node_action Runtime._build_graph].
  apply (runtime_check_calendar_raises _ (cls e));
    [apply classified_classification|exact Hm|exact Hraise].
Qed.

(** The run on the agent object is the run of the stages above whenever
    the calendar lookup, if it is made, returns. *)
Lemma runtime_process_email_simulates e w0 :
  (ignoredb (cls e) = false -> intent (cls e) = MEETING_REQUEST ->
   exists slots,
     Runtime.get_availability now MockCalendarService.default_days_ahead
     = Ok slots) ->
  rt_process e (fresh w0)
  = (fst (process e w0), fresh (snd (process e w0))).
Proof.
  intros Hlookup.
  rewrite (runtime_process_email_returns e w0 Hlookup), process_email_eq.
  destruct (ignoredb (cls e)); reflexivity.
Qed.

(** Failures of the model and of the parsers never cross the workflow
    boundary; the calendar lookup can.  On a freshly built agent, with a
    clock reading that is a date, [process_email] leaves the agent object
    as it was and either returns a state (holding the e-mail, the context
    of its sender and a classification, after the first two stages or
    all six), or raises "date value out of range" out of the calendar
    stage, third in the trace, with nothing printed.  It raises only for
    an e-mail the model classified as a meeting request while the clock
    is within seven days of 9999-12-31. *)
Theorem process_email_raises_only_on_date_overflow (e : EmailData) (w0 : world) :
  Runtime.valid_date now ->
  exists outcome r',
    rt_process e (fresh w0) = (outcome, r') /\
    Runtime.agent r' = Runtime.EmailAgent_init /\
    match outcome with
    | Ok final =>
        email final = e /\
        sender_context final
        = Some (MockGmailService.get_sender_context (sender e)) /\
        (exists c, classification final = Some c) /\
        (executed (Runtime.console r')
         = (executed w0 ++ [enrich_sender; classify_email])%list \/
         executed (Runtime.console r')
         = (executed w0 ++ [enrich_sender; classify_email; check_calendar;
                            draft_response; human_review; send_email])%list)
    | Raise m =>
        m = "date value out of range" /\
        Runtime.max_ordinal < dt_ordinal now + 7 /\
        (exists c,
            attempt_c e (MockGmailService.get_sender_context (sender e)) = Ok c /\
            intent c = MEETING_REQUEST) /\
        executed (Runtime.console r')
        = (executed w0 ++ [enrich_sender; classify_email; check_calendar])%list /\
        stdout (Runtime.console r') = stdout w0
    end /\
    (dt_ordinal now + 7 <= Runtime.max_ordinal -> exists final, outcome = Ok final).
Proof.
  intros Hv.
  assert (Hreturns :
    (ignoredb (cls e) = false -> intent (cls e) = MEETING_REQUEST ->
     exists slots,
       Runtime.get_availability now MockCalendarService.default_days_ahead
       = Ok slots) ->
    exists outcome r',
      rt_process e (fresh w0) = (outcome, r') /\
      Runtime.agent r' = Runtime.EmailAgent_init /\
      (exists final, outcome = Ok final /\
         email final = e /\
         sender_context final
         = Some (MockGmailService.get_sender_context (sender e)) /\
         (exists c, classification final = Some c) /\
         (executed (Runtime.console r')
          = (executed w0 ++ [enrich_sender; classify_email])%list \/
          executed (Runtime.console r')
          = (executed w0 ++ [enrich_sender; classify_email; check_calendar;
                             draft_response; human_review; send_email])%list))).
  { intros Hlookup. rewrite (runtime_process_email_returns e w0 Hlookup).
    destruct (ignoredb (cls e)).
    - do 2 eexists. split; [reflexivity|]. split; [reflexivity|].
      exists (classified e). split; [reflexivity|].
      destruct (classified_untouched e) as (He & Hsc & _).
      split; [exact He|]. split; [exact Hsc|].
      split; [eexists; apply classified_classification|].
      left. apply ignored_world_executed.
    - do 2 eexists. split; [reflexivity|]. split; [reflexivity|].
      exists (sent e). split; [reflexivity|].
      destruct (sent_fields e) as (He & Hc & _).
      split; [exact He|].
      split.
      { unfold sent_state, drafted_state, draft_result, calendar_result.
        destruct (draft_attempt _ _ _ _ _ _ _ _);
          destruct (decide _); cbn;
          apply (classified_untouched e). }
      split; [eexists; exact Hc|].
      right. apply sent_world_executed. }
  destruct (Z_le_gt_dec (dt_ordinal now + 7) Runtime.max_ordinal) as [Hin|Hout].
  - destruct Hreturns as (outcome & r' & Hrun & Hagent & final & -> & Hfacts).
    { intros _ _. eexists.
      by apply RuntimeCalendar.get_availability_in_range. }
    exists (Ok final), r'. split; [exact Hrun|]. split; [exact Hagent|].
    split; [exact Hfacts|]. intros _. by exists final.
  - destruct (ignoredb (cls e)) eqn:Hig;
      [|destruct (decide (intent (cls e) = MEETING_REQUEST)) as [Hm|Hm]].
    + destruct Hreturns as (outcome & r' & Hrun & Hagent & final & -> & Hfacts).
      { intros Hf. discriminate. }
      exists (Ok final), r'. split; [exact Hrun|]. split; [exact Hagent|].
      split; [exact Hfacts|]. intros _. by exists final.
    + pose proof (RuntimeCalendar.get_availability_overflow now 7 Hv
                    ltac:(lia)) as Hraise.
      rewrite (runtime_process_email_raises e w0 _ Hig Hm Hraise).
      do 2 eexists. split; [reflexivity|]. split; [reflexivity|].
      split; [|intros Hle; lia].
      split; [reflexivity|]. split; [lia|].
      split.
      { unfold classification_of, sender_ctx in Hm.
        destruct (classify_attempt _ _ _ _ _) as [c|m'] eqn:Hatt.
        - exists c. by split.
        - discriminate. }
      split.
      { cbn [Runtime.console executed mark]. rewrite ignored_world_executed.
        by rewrite <- app_assoc. }
      reflexivity.
    + destruct Hreturns as (outcome & r' & Hrun & Hagent & final & -> & Hfacts).
      { intros _ Hm'. contradiction. }
      exists (Ok final), r'. split; [exact Hrun|]. split; [exact Hagent|].
      split; [exact Hfacts|]. intros _. by exists final.
Qed.

(** With the model unreachable (every call raises, each with its own
    message), every e-mail is answered with the canned text: the run
    sends "Thank you for your email. ..." under the subject "Re: " plus
    the original subject, and reports the failure of the drafting call. *)
Theorem unreachable_model_sends_canned_reply (e : EmailData) (w0 : world) :
  (forall p, exists m, llm_invoke p = Raise m) ->
  exists final w m,
    process e w0 = (Ok final, w) /\
    send_email ∈ executed w /\
    classification final = Some fallback_classification /\
    response_draft final = Some (fallback_draft e) /\
    final_response final
    = Some "Thank you for your email. I'll review this and get back to you soon." /\
    should_send final = true /\
    llm_invoke
      (response_prompt response_format_instructions strftime e
         fallback_classification
         (MockGmailService.get_sender_context (sender e)) None)
    = Raise m /\
    error final = Some ("Response drafting failed: " ++ m).
Proof.
  intros Hdown.
  assert (Hca : exists m1, attempt_c e (sender_ctx e) = Raise m1).
  { unfold classify_attempt.
    destruct (Hdown (classification_prompt classification_format_instructions
                       e (sender_ctx e))) as [m1 Hm1].
    exists m1. by rewrite Hm1. }
  destruct Hca as [m1 Hca].
  assert (Hcls : cls e = fallback_classification).
  { unfold classification_of. by rewrite Hca. }
  assert (Hav : avail e = None).
  { unfold availability_of. by rewrite Hcls. }
  destruct (Hdown (response_prompt response_format_instructions strftime e
                     fallback_classification (sender_ctx e) None))
    as [m Hm].
  assert (Hda : attempt_d e (cls e) (sender_ctx e) (avail e) = Raise m).
  { rewrite Hcls, Hav. unfold draft_attempt. by rewrite Hm. }
  assert (Hdrf : drf e = fallback_draft e).
  { unfold draft_of. by rewrite Hda. }
  rewrite process_email_eq, Hcls.
  change (ignoredb fallback_classification) with false. cbn iota.
  exists (sent e), (sent_w e w0), m.
  destruct (sent_fields e) as (_ & Hc & _ & Hd & Hf & Hs & Herr).
  split; [reflexivity|].
  split.
  { rewrite sent_world_executed. apply elem_of_executed_app.
    apply list_elem_of_In. cbn. auto 10. }
  rewrite Hc, Hd, Hf, Hs, Herr, drafted_error, Hda, Hcls, Hdrf.
  repeat split. exact Hm.
Qed.

End Properties.

(** C8: two calls of [process_email] on one agent object, with the same
    e-mail, the same model function and a calendar lookup that returns
    the same slots at both clock readings.  The second call starts from
    the agent and the console the first one left.  The first call leaves
    the agent object as [EmailAgent()] built it, and both calls return
    the same classification (the parsed one, or the fallback) and the
    same draft (none for an ignored e-mail, else the parsed one or the
    fallback), with the same slots, final response, send flag and
    error. *)
Theorem process_email_twice_on_one_agent
  (llm_invoke : prompt -> result string)
  (classification_parse : string -> result EmailClassification)
  (response_parse : string -> result ResponseDraft)
  (classification_format_instructions response_format_instructions : string)
  (strftime : datetime -> string -> string)
  (now later : datetime) (e : EmailData) (w0 : world)
  (slots : list CalendarSlot) :
  Runtime.get_availability now MockCalendarService.default_days_ahead
  = Ok slots ->
  Runtime.get_availability later MockCalendarService.default_days_ahead
  = Ok slots ->
  exists st1 r1 st2 r2 c,
    Runtime.process_email llm_invoke classification_parse response_parse
      classification_format_instructions response_format_instructions
      strftime now e
      {| Runtime.agent := Runtime.EmailAgent_init; Runtime.console := w0 |}
    = (Ok st1, r1) /\
    Runtime.agent r1 = Runtime.EmailAgent_init /\
    Runtime.process_email llm_invoke classification_parse response_parse
      classification_format_instructions response_format_instructions
      strftime later e r1
    = (Ok st2, r2) /\
    Runtime.agent r2 = Runtime.EmailAgent_init /\
    c = match classify_attempt llm_invoke classification_parse
                classification_format_instructions e
                (MockGmailService.get_sender_context (sender e)) with
        | Ok parsed => parsed
        | Raise _ => fallback_classification
        end /\
    classification st1 = Some c /\
    classification st2 = Some c /\
    response_draft st1
    = (if ignoredb c then None
       else Some
              match draft_attempt llm_invoke response_parse
                      response_format_instructions strftime e c
                      (MockGmailService.get_sender_context (sender e))
                      (if decide (intent c = MEETING_REQUEST)
                       then Some slots else None) with
              | Ok parsed => parsed
              | Raise _ => fallback_draft e
              end) /\
    response_draft st2 = response_draft st1 /\
    calendar_availability st2 = calendar_availability st1 /\
    final_response st2 = final_response st1 /\
    should_send st2 = should_send st1 /\
    error st2 = error st1.
Proof.
  intros Hnow Hlater.
  pose proof (RuntimeCalendar.get_availability_returns _ _ _ Hnow) as Hs1.
  pose proof (RuntimeCalendar.get_availability_returns _ _ _ Hlater) as Hs2.
  set (c := classification_of llm_invoke classification_parse
              classification_format_instructions e).
  assert (Hav : availability_of llm_invoke classification_parse
                  classification_format_instructions now e
                = availability_of llm_invoke classification_parse
                    classification_format_instructions later e).
  { unfold availability_of. by rewrite <- Hs1, <- Hs2. }
  assert (Hav' : availability_of llm_invoke classification_parse
                   classification_format_instructions now e
                 = if decide (intent c = MEETING_REQUEST)
                   then Some slots else None).
  { unfold availability_of. fold c. by rewrite <- Hs1. }
  assert (Hdr : draft_of llm_invoke classification_parse response_parse
                  classification_format_instructions
                  response_format_instructions strftime now e
                = draft_of llm_invoke classification_parse response_parse
                    classification_format_instructions
                    response_format_instructions strftime later e).
  { unfold draft_of. by rewrite Hav. }
  assert (Herr : forall t,
    error (drafted_state llm_invoke classification_parse response_parse
             classification_format_instructions
             response_format_instructions strftime t e)
    = match draft_attempt llm_invoke response_parse
              response_format_instructions strftime e c (sender_ctx e)
              (availability_of llm_invoke classification_parse
                 classification_format_instructions t e) with
      | Ok _ => error (classified_state llm_invoke classification_parse
                         classification_format_instructions e)
      | Raise m => Some ("Response drafting failed: " ++ m)
      end).
  { intros t. apply drafted_error. }
  assert (Hlook1 :
    ignoredb c = false -> intent c = MEETING_REQUEST ->
    exists l,
      Runtime.get_availability now MockCalendarService.default_days_ahead
      = Ok l) by (intros _ _; eauto).
  assert (Hlook2 :
    ignoredb c = false -> intent c = MEETING_REQUEST ->
    exists l,
      Runtime.get_availability later MockCalendarService.default_days_ahead
      = Ok l) by (intros _ _; eauto).
  assert (Hrun1 := fun w =>
    runtime_process_email_returns llm_invoke classification_parse
      response_parse classification_format_instructions
      response_format_instructions strftime now e w Hlook1).
  assert (Hrun2 := fun w =>
    runtime_process_email_returns llm_invoke classification_parse
      response_parse classification_format_instructions
      response_format_instructions strftime later e w Hlook2).
  fold c in Hrun1, Hrun2.
  destruct (ignoredb c) eqn:Hig.
  - destruct (classified_untouched llm_invoke classification_parse
                classification_format_instructions e)
      as (_ & _ & _ & Hd & _).
    do 4 eexists. exists c.
    split; [apply Hrun1|]. split; [reflexivity|].
    split; [apply Hrun2|]. split; [reflexivity|].
    split; [reflexivity|].
    split; [apply classified_classification|].
    split; [apply classified_classification|].
    split; [rewrite Hig; exact Hd|]. by repeat split.
  - pose proof (sent_fields llm_invoke classification_parse response_parse
                  classification_format_instructions
                  response_format_instructions strftime now e)
      as (_ & Hc1 & Hcal1 & Hd1 & Hf1 & Hsend1 & He1).
    pose proof (sent_fields llm_invoke classification_parse response_parse
                  classification_format_instructions
                  response_format_instructions strftime later e)
      as (_ & Hc2 & Hcal2 & Hd2 & Hf2 & Hsend2 & He2).
    do 4 eexists. exists c.
    split; [apply Hrun1|]. split; [reflexivity|].
    split; [apply Hrun2|]. split; [reflexivity|].
    split; [reflexivity|].
    split; [exact Hc1|]. split; [exact Hc2|].
    split.
    { rewrite Hig, Hd1. unfold draft_of. fold c. rewrite Hav'. reflexivity. }
    rewrite Hd1, Hd2, Hcal1, Hcal2, Hf1, Hf2, Hsend1, Hsend2, He1, He2,
      !Herr, <- Hav, <- Hdr.
    by repeat split.
Qed.

Lemma process_email_twice_on_one_agent_witness :
  let slots := MockCalendarService.get_availability Samples.clock
                 MockCalendarService.default_days_ahead in
  Runtime.get_availability Samples.clock MockCalendarService.default_days_ahead
  = Ok slots /\
  Runtime.get_availability Samples.clock_later
    MockCalendarService.default_days_ahead = Ok slots /\
  exists st1 r1 st2 r2,
    Runtime.process_email Samples.llm_up Samples.parse_meeting_request
      Samples.parse_plain_draft "fi" "fi" Samples.strftime_plain
      Samples.clock Samples.meeting_email
      {| Runtime.agent := Runtime.EmailAgent_init;
         Runtime.console := empty_world |}
    = (Ok st1, r1) /\
    Runtime.process_email Samples.llm_up Samples.parse_meeting_request
      Samples.parse_plain_draft "fi" "fi" Samples.strftime_plain
      Samples.clock_later Samples.meeting_email r1
    = (Ok st2, r2) /\
    classification st2 = classification st1 /\
    response_draft st2 = response_draft st1.
Proof.
  intros slots.
  assert (H1 : Runtime.get_availability Samples.clock
                 MockCalendarService.default_days_ahead = Ok slots)
    by reflexivity.
  assert (H2 : Runtime.get_availability Samples.clock_later
                 MockCalendarService.default_days_ahead = Ok slots)
    by reflexivity.
  split; [exact H1|]. split; [exact H2|].
  destruct (process_email_twice_on_one_agent
              Samples.llm_up Samples.parse_meeting_request
              Samples.parse_plain_draft "fi" "fi" Samples.strftime_plain
              Samples.clock Samples.clock_later Samples.meeting_email
              empty_world slots H1 H2)
    as (st1 & r1 & st2 & r2 & c & Hrun1 & _ & Hrun2 & _ & _ & Hc1 & Hc2
        & _ & Hd & _).
  exists st1, r1, st2, r2.
  split; [exact Hrun1|]. split; [exact Hrun2|].
  split; [by rewrite Hc1, Hc2|exact Hd].
Defined.

(** * Beyond the claims: the console driver *)

Lemma str_prefix_short (s : string) : forall n,
  (String.length s <= n)%nat -> Main.str_prefix n s = s.
Proof.
  induction s as [|c s IH]; intros n Hlen; [reflexivity|].
  cbn [Main.str_prefix]. cbn [String.length] in Hlen.
  destruct (Main.utf8_continuation c).
  - f_equal. apply IH. lia.
  - destruct n as [|n]; [lia|]. f_equal. apply IH. lia.
Qed.

Section MainProperties.

Variable api_key : option string.
Variable llm_at : nat -> prompt -> result string.
Variable classification_parse : string -> result EmailClassification.
Variable response_parse : string -> result ResponseDraft.
Variable classification_format_instructions : string.
Variable response_format_instructions : string.
Variable strftime : datetime -> string -> string.
Variable clock_at : nat -> datetime.
Variable received : nat -> datetime.

Local Abbreviation run_at i :=
  (process_email (llm_at i) classification_parse response_parse
     classification_format_instructions response_format_instructions
     strftime (clock_at i)).
Local Abbreviation process_one :=
  (Main.process_one llm_at classification_parse response_parse
     classification_format_instructions response_format_instructions
     strftime clock_at).
Local Abbreviation for_each_email :=
  (Main.for_each_email llm_at classification_parse response_parse
     classification_format_instructions response_format_instructions
     strftime clock_at).
Local Abbreviation main :=
  (Main.main api_key llm_at classification_parse response_parse
     classification_format_instructions response_format_instructions
     strftime clock_at received).

Lemma announce_eq i e w :
  Main.announce i e w = (Ok tt, printed w (MainFacts.announce_lines i e)).
Proof.
  unfold Main.announce, bind.
  rewrite !print_eq, !printed_printed. reflexivity.
Qed.

(** The error a run returns is never the empty string. *)
Lemma run_error_truthy i e w final w' :
  run_at i e w = (Ok final, w') ->
  error final = None \/ exists ch msg, error final = Some (String ch msg).
Proof.
  rewrite process_email_eq.
  destruct (ignoredb _); intros Hrun; injection Hrun as <- <-.
  - rewrite classified_error.
    destruct (classify_attempt _ _ _ _ _); [by left|right].
    cbn. eauto.
  - pose proof (sent_fields (llm_at i) classification_parse response_parse
                  classification_format_instructions
                  response_format_instructions strftime (clock_at i) e)
      as (_ & _ & _ & _ & _ & _ & Herr).
    rewrite Herr, drafted_error, classified_error.
    destruct (draft_attempt _ _ _ _ _ _ _ _); [|right; cbn; eauto].
    destruct (classify_attempt _ _ _ _ _); [by left|right].
    cbn. eauto.
Qed.

Lemma report_eq result c w :
  classification result = Some c ->
  error result = None \/ (exists ch msg, error result = Some (String ch msg)) ->
  exists lines,
    Main.report result w = (Ok tt, printed w lines) /\
    last lines = Some (MainFacts.verdict_line result c).
Proof.
  intros Hc Herr. unfold Main.report, MainFacts.verdict_line.
  destruct Herr as [Herr|(ch & msg & Herr)]; rewrite Herr.
  - rewrite Hc. unfold bind. rewrite !print_eq.
    destruct (requires_response c);
      rewrite print_eq, !printed_printed; eexists; split; reflexivity.
  - rewrite print_eq. eexists. split; reflexivity.
Qed.

Lemma run_classification i e w final w' :
  run_at i e w = (Ok final, w') ->
  exists c, classification final = Some c.
Proof.
  rewrite process_email_eq.
  destruct (ignoredb _); intros Hrun; injection Hrun as <- <-.
  - eexists. apply classified_classification.
  - eexists.
    apply (sent_fields (llm_at i) classification_parse response_parse
             classification_format_instructions
             response_format_instructions strftime (clock_at i) e).
Qed.

Lemma run_returns i e w :
  exists final w',
    run_at i e w = (Ok final, w') /\
    exists trace,
      executed w' = (executed w ++ trace)%list /\ MainFacts.one_run trace.
Proof.
  rewrite process_email_eq. destruct (ignoredb _).
  - do 2 eexists. split; [reflexivity|].
    eexists. split; [apply ignored_world_executed|by left].
  - do 2 eexists. split; [reflexivity|].
    eexists. split; [apply sent_world_executed|by right].
Qed.

(** Without an API key (unset or empty) the driver prints the one line
    that says so and processes nothing. *)
Theorem main_without_api_key (w : world) :
  api_key = None \/ api_key = Some "" ->
  main w
  = (Ok tt,
     printed w
       [Main.cross_mark ++ " Application failed to start: "
        ++ "OPENAI_API_KEY not found in environment variables"]).
Proof.
  intros [Hkey|Hkey]; unfold Main.main, Main.load_environment, try_except, bind;
    rewrite Hkey; reflexivity.
Qed.

(** An e-mail the model classifies as spam or newsletter while marking it
    as requiring a response is ignored by the workflow (two stages, no
    draft), and yet the summary ends with "Response drafted and pending
    approval". *)
Theorem ignored_email_reported_as_pending
  (i : nat) (e : EmailData) (c : EmailClassification) (w : world) :
  classify_attempt (llm_at i) classification_parse
    classification_format_instructions e
    (MockGmailService.get_sender_context (sender e)) = Ok c ->
  requires_response c = true ->
  intent c = SPAM \/ intent c = NEWSLETTER ->
  exists final w1 w',
    run_at i e (printed w (MainFacts.announce_lines i e)) = (Ok final, w1) /\
    executed w1 = (executed w ++ [enrich_sender; classify_email])%list /\
    response_draft final = None /\
    should_send final = false /\
    process_one i e w = (Ok tt, w') /\
    last (stdout w')
    = Some (Main.envelope ++ " Response drafted and pending approval").
Proof.
  intros Hatt Hreq Hint.
  assert (Hcls : classification_of (llm_at i) classification_parse
                   classification_format_instructions e = c).
  { unfold classification_of, sender_ctx. by rewrite Hatt. }
  assert (Hig : ignoredb c = true).
  { apply ignoredb_spec. right. exact Hint. }
  set (w0 := printed w (MainFacts.announce_lines i e)).
  set (final := classified_state (llm_at i) classification_parse
                  classification_format_instructions e).
  assert (Hrun : run_at i e w0 = (Ok final, ignored_world w0)).
  { rewrite process_email_eq, Hcls, Hig. reflexivity. }
  assert (Hc : classification final = Some c).
  { unfold final. rewrite classified_classification. by rewrite Hcls. }
  destruct (classified_untouched (llm_at i) classification_parse
              classification_format_instructions e)
    as (_ & _ & _ & Hd & _ & Hs).
  assert (Herr : error final = None).
  { unfold final. rewrite classified_error. unfold sender_ctx. by rewrite Hatt. }
  destruct (report_eq final c (ignored_world w0) Hc (or_introl Herr))
    as (lines & Hrep & Hlast).
  exists final, (ignored_world w0), (printed (ignored_world w0) lines).
  split; [exact Hrun|].
  split; [rewrite ignored_world_executed; reflexivity|].
  split; [exact Hd|]. split; [exact Hs|].
  split.
  { unfold Main.process_one, bind, try_except.
    rewrite announce_eq. fold w0. rewrite Hrun, Hrep. reflexivity. }
  cbn [stdout printed].
  destruct lines as [|l ls]; [discriminate|].
  rewrite last_app, Hlast. unfold MainFacts.verdict_line.
  fold final in Hs. by rewrite Herr, Hreq, Hs.
Qed.

(** A content of at most 100 bytes is announced in full, and the three
    dots are printed all the same. *)
Theorem announce_shows_short_content_in_full (i : nat) (e : EmailData) (w : world) :
  (String.length (content e) <= 100)%nat ->
  Main.announce i e w
  = (Ok tt,
     printed w
       [ newline ++ Main.rule60; "PROCESSING EMAIL " ++ pretty i; Main.rule60;
         "From: " ++ sender e; "Subject: " ++ subject e;
         "Content: " ++ content e ++ "..." ]).
Proof.
  intros Hlen. rewrite announce_eq. unfold MainFacts.announce_lines.
  by rewrite (str_prefix_short _ _ Hlen).
Qed.

End MainProperties.

(** * The console driver on the agent object *)

Section RuntimeMainProperties.

Variable api_key : option string.
Variable llm_at : nat -> prompt -> result string.
Variable classification_parse : string -> result EmailClassification.
Variable response_parse : string -> result ResponseDraft.
Variable classification_format_instructions : string.
Variable response_format_instructions : string.
Variable strftime : datetime -> string -> string.
Variable clock_at : nat -> datetime.
Variable received : nat -> datetime.

Local Abbreviation rt_run_at i :=
  (Runtime.process_email (llm_at i) classification_parse response_parse
     classification_format_instructions response_format_instructions
     strftime (clock_at i)).
Local Abbreviation rt_process_one :=
  (Runtime.process_one llm_at classification_parse response_parse
     classification_format_instructions response_format_instructions
     strftime clock_at).
Local Abbreviation rt_for_each_email :=
  (Runtime.for_each_email llm_at classification_parse response_parse
     classification_format_instructions response_format_instructions
     strftime clock_at).
Local Abbreviation rt_main :=
  (Runtime.main api_key llm_at classification_parse response_parse
     classification_format_instructions response_format_instructions
     strftime clock_at received).
Local Abbreviation fresh w :=
  {| Runtime.agent := Runtime.EmailAgent_init; Runtime.console := w |}.

Local Abbreviation rt_lookup_at i :=
  (Runtime.get_availability (clock_at i) MockCalendarService.default_days_ahead).

Lemma runtime_process_one_eq i e w :
  exists outcome w1 w',
    rt_run_at i e (fresh (printed w (MainFacts.announce_lines i e)))
    = (outcome, fresh w1) /\
    rt_process_one i e (fresh w) = (Ok tt, fresh w') /\
    match outcome with
    | Ok final =>
        exists c lines trace,
          classification final = Some c /\
          w' = printed w1 lines /\
          last lines = Some (MainFacts.verdict_line final c) /\
          executed w1 = (executed w ++ trace)%list /\
          MainFacts.one_run trace
    | Raise m =>
        rt_lookup_at i = Raise m /\
        w' = printed w1 [Main.cross_mark ++ " Processing failed: " ++ m] /\
        executed w1
        = (executed w ++ [enrich_sender; classify_email; check_calendar])%list
    end.
Proof.
  set (w0 := printed w (MainFacts.announce_lines i e)).
  set (c0 := classification_of (llm_at i) classification_parse
               classification_format_instructions e).
  assert (Hone : forall outcome w1 w',
    rt_run_at i e (fresh w0) = (outcome, fresh w1) ->
    match outcome with
    | Ok final => Main.report final w1
    | Raise m => print (Main.cross_mark ++ " Processing failed: " ++ m) w1
    end = (Ok tt, w') ->
    rt_process_one i e (fresh w) = (Ok tt, fresh w')).
  { intros outcome w1 w' Hrun Hrep.
    unfold Runtime.process_one, Runtime.bind, Runtime.try_except.
    rewrite (on_console_eq _ _ w (Ok tt) w0 (announce_eq i e w)).
    rewrite Hrun. destruct outcome as [final|m];
      by rewrite (on_console_eq _ _ w1 (Ok tt) w' Hrep). }
  assert (Hcases :
    (ignoredb c0 = false -> intent c0 = MEETING_REQUEST ->
     exists slots, rt_lookup_at i = Ok slots) \/
    (ignoredb c0 = false /\ intent c0 = MEETING_REQUEST /\
     exists m, rt_lookup_at i = Raise m)).
  { destruct (rt_lookup_at i) as [slots|m]; [left; eauto|].
    destruct (ignoredb c0); [left; discriminate|].
    destruct (decide (intent c0 = MEETING_REQUEST));
      [right; eauto|left; intros _ H; contradiction]. }
  destruct Hcases as [Hlookup|(Hig & Hm & m & Hraise)].
  - pose proof (runtime_process_email_simulates (llm_at i)
                  classification_parse response_parse
                  classification_format_instructions
                  response_format_instructions strftime (clock_at i)
                  e w0 Hlookup) as Hsim.
    destruct (run_returns llm_at classification_parse response_parse
                classification_format_instructions
                response_format_instructions strftime clock_at i e w0)
      as (final & w1 & Hrun & trace & Htrace & Hshape).
    rewrite Hrun in Hsim. cbn [fst snd] in Hsim.
    destruct (run_classification llm_at classification_parse response_parse
                classification_format_instructions
                response_format_instructions strftime clock_at
                i e w0 final w1 Hrun) as (c & Hc).
    destruct (report_eq final c w1 Hc
                (run_error_truthy llm_at classification_parse response_parse
                   classification_format_instructions
                   response_format_instructions strftime clock_at
                   i e w0 final w1 Hrun))
      as (lines & Hrep & Hlast).
    exists (Ok final), w1, (printed w1 lines).
    split; [exact Hsim|].
    split; [by apply (Hone (Ok final) w1)|].
    exists c, lines, trace. by repeat split.
  - pose proof (runtime_process_email_raises (llm_at i)
                  classification_parse response_parse
                  classification_format_instructions
                  response_format_instructions strftime (clock_at i)
                  e w0 m Hig Hm Hraise) as Hrun.
    exists (Raise m), (mark (ignored_world w0) check_calendar),
      (printed (mark (ignored_world w0) check_calendar)
         [Main.cross_mark ++ " Processing failed: " ++ m]).
    split; [exact Hrun|].
    split; [by apply (Hone (Raise m) (mark (ignored_world w0) check_calendar))|].
    split; [exact Hraise|]. split; [reflexivity|].
    cbn [executed mark]. rewrite ignored_world_executed.
    by rewrite <- app_assoc.
Qed.


(** No e-mail stops the batch, not even one whose calendar lookup
    raises.  Whatever the model and the clock do on each e-mail, the loop
    returns normally with the agent object as it was, and what it has
    executed is, per e-mail and in list order, one complete run (two or
    six stages) or a run cut short in the calendar stage (three stages);
    with every clock reading a date at least seven days before
    9999-12-31, every run is complete. *)
Theorem batch_runs_every_email_on_the_agent (emails : list EmailData) :
  forall (i : nat) (w : world),
  exists w' traces,
    rt_for_each_email i emails (fresh w) = (Ok tt, fresh w') /\
    executed w' = (executed w ++ concat traces)%list /\
    length traces = length emails /\
    Forall (fun t => MainFacts.one_run t \/ RuntimeFacts.cut_short t) traces /\
    ((forall k, Runtime.valid_date (clock_at k) /\
                dt_ordinal (clock_at k) + 7 <= Runtime.max_ordinal) ->
     Forall MainFacts.one_run traces).
Proof.
  induction emails as [|e emails IH]; intros i w.
  - exists w, []. split; [reflexivity|].
    split; [cbn; by rewrite app_nil_r|]. split; [reflexivity|].
    split; [constructor|intros _; constructor].
  - destruct (runtime_process_one_eq i e w)
      as (outcome & w1 & w1' & _ & Hone & Hout).
    destruct (IH (S i) w1') as (w' & traces & Hrest & Hexec & Hlen & Hall & Hgood).
    assert (Htrace : exists trace,
      executed w1' = (executed w ++ trace)%list /\
      (MainFacts.one_run trace \/ RuntimeFacts.cut_short trace) /\
      ((forall k, Runtime.valid_date (clock_at k) /\
                  dt_ordinal (clock_at k) + 7 <= Runtime.max_ordinal) ->
       MainFacts.one_run trace)).
    { destruct outcome as [final|m].
      - destruct Hout as (c & lines & trace & _ & -> & _ & Htr & Hshape).
        exists trace. split; [exact Htr|]. split; [by left|by intros _].
      - destruct Hout as (Hraise & -> & Htr).
        eexists. split; [exact Htr|]. split; [by right|].
        intros Hclock. destruct (Hclock i) as [Hv Hin].
        rewrite RuntimeCalendar.get_availability_in_range in Hraise
          by assumption.
        discriminate. }
    destruct Htrace as (trace & Htr & Hshape & Hcomplete).
    exists w', (trace :: traces).
    split.
    { cbn [Runtime.for_each_email]. unfold Runtime.bind.
      rewrite Hone. exact Hrest. }
    split.
    { rewrite Hexec. cbn [concat]. rewrite Htr. by rewrite <- app_assoc. }
    split; [cbn; by rewrite Hlen|].
    split; [by constructor|].
    intros Hclock. constructor; [by apply Hcomplete|by apply Hgood].
Qed.

(** With an API key the driver builds the agent and returns normally
    after one run per test e-mail, three in all, each complete or cut
    short in the calendar stage. *)
Theorem main_with_api_key_runs_the_batch
  (ch : ascii) (key : string) (r : Runtime.runtime) :
  api_key = Some (String ch key) ->
  exists w' traces,
    rt_main r = (Ok tt, fresh w') /\
    executed w' = (executed (Runtime.console r) ++ concat traces)%list /\
    length traces = 3%nat /\
    Forall (fun t => MainFacts.one_run t \/ RuntimeFacts.cut_short t) traces.
Proof.
  intros Hkey.
  destruct (batch_runs_every_email_on_the_agent
              (Main.create_test_emails received) 1 (Runtime.console r))
    as (w' & traces & Hrun & Hexec & Hlen & Hall & _).
  exists w', traces.
  split.
  { unfold Runtime.main, Runtime.try_except, Runtime.bind.
    destruct r as [a w]. cbn [Runtime.console] in *.
    rewrite (on_console_eq _ a w (Ok tt) w)
      by (unfold Main.load_environment; by rewrite Hkey).
    unfold Runtime.construct_agent. cbn [Runtime.console]. cbv zeta.
    by rewrite Hrun. }
  split; [exact Hexec|]. split; [exact Hlen|exact Hall].
Qed.

End RuntimeMainProperties.

(** * Concrete runs *)

(** Evaluate a run on concrete collaborators and name its outcome. *)
Ltac evaluate_run :=
  match goal with
  | |- context [process_email ?l ?cp ?rp ?ci ?ri ?sf ?n ?e ?w] =>
      let Hrun := fresh "Hrun" in
      destruct (process_email l cp rp ci ri sf n e w) as [[?final|?m] ?w']
        eqn:Hrun;
      vm_compute in Hrun;
      [ injection Hrun as <- <- | discriminate Hrun ]
  end.

(** A meeting request, answered by a working model: all six stages run
    and five slots are stored. *)
Example meeting_request_run :
  exists final w,
    process_email Samples.llm_up Samples.parse_meeting_request
      Samples.parse_plain_draft "fi" "fi" Samples.strftime_plain
      Samples.clock Samples.meeting_email empty_world = (Ok final, w) /\
    executed w = [enrich_sender; classify_email; check_calendar;
                  draft_response; human_review; send_email] /\
    option_map (@length CalendarSlot) (calendar_availability final) = Some 5%nat /\
    should_send final = true /\
    error final = None.
Proof. evaluate_run. do 2 eexists. repeat split. Qed.

(** A newsletter: the run stops after the classify stage. *)
Example newsletter_run :
  exists final w,
    process_email Samples.llm_up Samples.parse_newsletter
      Samples.parse_plain_draft "fi" "fi" Samples.strftime_plain
      Samples.clock Samples.deals_email empty_world = (Ok final, w) /\
    executed w = [enrich_sender; classify_email] /\
    stdout w = [] /\
    response_draft final = None /\
    should_send final = false.
Proof. evaluate_run. do 2 eexists. repeat split. Qed.

(** * Instances of the theorems that have hypotheses *)

Lemma classify_failure_falls_back_witness :
  let st := enrich_result (initial_state Samples.meeting_email) in
  let sc := MockGmailService.get_sender_context (sender Samples.meeting_email) in
  sender_context st = Some sc /\
  classify_attempt Samples.llm_down Samples.parse_meeting_request "fi"
    (email st) sc = Raise "Connection error." /\
  exists st',
    _classify_email Samples.llm_down Samples.parse_meeting_request "fi"
      st empty_world = (Ok st', empty_world) /\
    classification st' = Some fallback_classification /\
    error st' = Some "Classification failed: Connection error.".
Proof.
  intros st sc.
  assert (H1 : sender_context st = Some sc) by reflexivity.
  assert (H2 : classify_attempt Samples.llm_down Samples.parse_meeting_request
                 "fi" (email st) sc = Raise "Connection error.")
    by reflexivity.
  split; [exact H1|]. split; [exact H2|].
  destruct (classify_failure_falls_back
              Samples.llm_down Samples.parse_meeting_request
              Samples.parse_plain_draft "fi" "fi" Samples.strftime_plain
              Samples.clock st sc "Connection error." empty_world H1 H2)
    as (st' & Hrun & Herr & _ & Hcls & _).
  exists st'. split; [exact Hrun|]. split; [exact Hcls|exact Herr].
Defined.

Lemma draft_failure_falls_back_witness :
  let c := {| intent := MEETING_REQUEST; urgency := HIGH;
              requires_response := true; reasoning := "classification" |} in
  let sc := MockGmailService.get_sender_context (sender Samples.meeting_email) in
  let st := set_classification
              (enrich_result (initial_state Samples.meeting_email)) c in
  classification st = Some c /\
  sender_context st = Some sc /\
  draft_attempt Samples.llm_classifies_only Samples.parse_plain_draft "fi"
    Samples.strftime_plain (email st) c sc (calendar_availability st)
  = Raise "Request timed out." /\
  exists st',
    _draft_response Samples.llm_classifies_only Samples.parse_plain_draft "fi"
      Samples.strftime_plain st empty_world = (Ok st', empty_world) /\
    response_draft st' = Some (fallback_draft Samples.meeting_email) /\
    error st' = Some "Response drafting failed: Request timed out.".
Proof.
  intros c sc st.
  assert (H1 : classification st = Some c) by reflexivity.
  assert (H2 : sender_context st = Some sc) by reflexivity.
  assert (H3 : draft_attempt Samples.llm_classifies_only
                 Samples.parse_plain_draft "fi" Samples.strftime_plain
                 (email st) c sc (calendar_availability st)
               = Raise "Request timed out.") by reflexivity.
  split; [exact H1|]. split; [exact H2|]. split; [exact H3|].
  destruct (draft_failure_falls_back
              Samples.llm_classifies_only Samples.parse_meeting_request
              Samples.parse_plain_draft "fi" "fi" Samples.strftime_plain
              Samples.clock st c sc "Request timed out." empty_world H1 H2 H3)
    as (st' & Hrun & Herr & _ & Hd & _).
  exists st'. split; [exact Hrun|]. split; [exact Hd|exact Herr].
Defined.

Lemma review_approves_and_routes_to_send_witness :
  let d := fallback_draft Samples.meeting_email in
  let st := set_response_draft (initial_state Samples.meeting_email) d in
  response_draft st = Some d /\
  exists st',
    should_send st' = true /\
    final_response st'
    = Some "Thank you for your email. I'll review this and get back to you soon.".
Proof.
  intros d st.
  assert (H1 : response_draft st = Some d) by reflexivity.
  split; [exact H1|].
  destruct (review_approves_and_routes_to_send
              Samples.llm_up Samples.parse_meeting_request
              Samples.parse_plain_draft "fi" "fi" Samples.strftime_plain
              Samples.clock st d H1)
    as (st' & _ & Hs & Hf & _).
  exists st'. split; [exact Hs|exact Hf].
Defined.

Lemma error_holds_the_last_failure_witness :
  let sc := MockGmailService.get_sender_context (sender Samples.meeting_email) in
  classify_attempt Samples.llm_down Samples.parse_meeting_request "fi"
    Samples.meeting_email sc = Raise "Connection error." /\
  draft_attempt Samples.llm_down Samples.parse_plain_draft "fi"
    Samples.strftime_plain Samples.meeting_email fallback_classification sc None
  = Raise "Connection error." /\
  exists final w,
    process_email Samples.llm_down Samples.parse_meeting_request
      Samples.parse_plain_draft "fi" "fi" Samples.strftime_plain
      Samples.clock Samples.meeting_email empty_world = (Ok final, w) /\
    error final = Some "Response drafting failed: Connection error.".
Proof.
  intros sc.
  assert (H1 : classify_attempt Samples.llm_down Samples.parse_meeting_request
                 "fi" Samples.meeting_email sc = Raise "Connection error.")
    by reflexivity.
  assert (H2 : draft_attempt Samples.llm_down Samples.parse_plain_draft "fi"
                 Samples.strftime_plain Samples.meeting_email
                 fallback_classification sc None
               = Raise "Connection error.") by reflexivity.
  split; [exact H1|]. split; [exact H2|].
  destruct (error_holds_the_last_failure
              Samples.llm_down Samples.parse_meeting_request
              Samples.parse_plain_draft "fi" "fi" Samples.strftime_plain
              Samples.clock Samples.meeting_email
              "Connection error." "Connection error." H1 H2)
    as (st0 & st1 & final & w & _ & _ & _ & Hrun & _ & Herr).
  exists final, w. split; [exact Hrun|exact Herr].
Defined.

(** * Instances of the further theorems that have hypotheses *)

Lemma failed_classification_is_always_answered_witness :
  classify_attempt Samples.llm_down Samples.parse_newsletter "fi"
    Samples.deals_email
    (MockGmailService.get_sender_context (sender Samples.deals_email))
  = Raise "Connection error." /\
  exists final w,
    process_email Samples.llm_down Samples.parse_newsletter
      Samples.parse_plain_draft "fi" "fi" Samples.strftime_plain
      Samples.clock Samples.deals_email empty_world = (Ok final, w) /\
    calendar_availability final = None /\
    should_send final = true.
Proof.
  assert (H : classify_attempt Samples.llm_down Samples.parse_newsletter "fi"
                Samples.deals_email
                (MockGmailService.get_sender_context (sender Samples.deals_email))
              = Raise "Connection error.") by reflexivity.
  split; [exact H|].
  destruct (failed_classification_is_always_answered
              Samples.llm_down Samples.parse_newsletter
              Samples.parse_plain_draft "fi" "fi" Samples.strftime_plain
              Samples.clock Samples.deals_email "Connection error."
              empty_world H)
    as (final & w & d & Hrun & _ & Hcal & _ & _ & Hs).
  exists final, w. split; [exact Hrun|]. split; [exact Hcal|exact Hs].
Defined.

Lemma edges_lead_forward_witness :
  let st := set_classification (initial_state Samples.meeting_email)
              fallback_classification in
  classification st = Some fallback_classification /\
  follow
    (node_edges
       (_build_graph Samples.llm_up Samples.parse_meeting_request
          Samples.parse_plain_draft "fi" "fi" Samples.strftime_plain
          Samples.clock)
       check_calendar)
    st empty_world
  = (Ok (To draft_response), empty_world).
Proof.
  intros st.
  assert (H : classification st = Some fallback_classification) by reflexivity.
  split; [exact H|].
  destruct (edges_lead_forward
              Samples.llm_up Samples.parse_meeting_request
              Samples.parse_plain_draft "fi" "fi" Samples.strftime_plain
              Samples.clock check_calendar st fallback_classification
              empty_world H)
    as (t & Hfollow & _ & Ht).
  rewrite Hfollow. by rewrite (Ht eq_refl).
Defined.

Lemma stage_writes_only_its_own_keys_witness :
  let graph := _build_graph Samples.llm_up Samples.parse_meeting_request
                 Samples.parse_plain_draft "fi" "fi" Samples.strftime_plain
                 Samples.clock in
  let st := initial_state Samples.meeting_email in
  node_action graph enrich_sender st empty_world
  = (Ok (enrich_result st), empty_world) /\
  email (enrich_result st) = email st /\
  classification (enrich_result st) = classification st.
Proof.
  intros graph st.
  assert (H : node_action graph enrich_sender st empty_world
              = (Ok (enrich_result st), empty_world)) by reflexivity.
  split; [exact H|].
  destruct (stage_writes_only_its_own_keys
              Samples.llm_up Samples.parse_meeting_request
              Samples.parse_plain_draft "fi" "fi" Samples.strftime_plain
              Samples.clock enrich_sender st (enrich_result st)
              empty_world empty_world H)
    as (He & _ & _ & _ & _ & _ & Hc & _).
  split; [exact He|]. apply Hc. discriminate.
Defined.

Lemma classification_prompt_of_unknown_sender_witness :
  sender Samples.deals_email <> "ceo@company.com" /\
  sender Samples.deals_email <> "support@customer.com" /\
  classification_prompt "fi" Samples.deals_email
    (MockGmailService.get_sender_context (sender Samples.deals_email))
  = CLASSIFICATION_PROMPT "fi" "newsletter@spam.com" "Unknown" "Unknown"
      "Amazing deals just for you!" "Click here to save 90% on everything!"
      "medium" "unknown".
Proof.
  assert (H1 : sender Samples.deals_email <> "ceo@company.com")
    by discriminate.
  assert (H2 : sender Samples.deals_email <> "support@customer.com")
    by discriminate.
  split; [exact H1|]. split; [exact H2|].
  exact (classification_prompt_of_unknown_sender "fi" Samples.deals_email H1 H2).
Defined.


Lemma main_without_api_key_witness :
  (@None string = None \/ @None string = Some "") /\
  exists w,
    Main.main None MoreSamples.llm_up_at Samples.parse_meeting_request
      Samples.parse_plain_draft "fi" "fi" Samples.strftime_plain
      MoreSamples.clock_at MoreSamples.clock_at empty_world = (Ok tt, w) /\
    executed w = [].
Proof.
  assert (H : @None string = None \/ @None string = Some "")
    by (left; reflexivity).
  split; [exact H|].
  eexists. split.
  - exact (main_without_api_key None MoreSamples.llm_up_at
             Samples.parse_meeting_request Samples.parse_plain_draft
             "fi" "fi" Samples.strftime_plain MoreSamples.clock_at
             MoreSamples.clock_at empty_world H).
  - reflexivity.
Defined.

Lemma ignored_email_reported_as_pending_witness :
  let c := {| intent := SPAM; urgency := LOW; requires_response := true;
              reasoning := "classification" |} in
  classify_attempt (MoreSamples.llm_up_at 3) MoreSamples.parse_spam_to_answer
    "fi" Samples.deals_email
    (MockGmailService.get_sender_context (sender Samples.deals_email)) = Ok c /\
  requires_response c = true /\
  (intent c = SPAM \/ intent c = NEWSLETTER) /\
  exists w',
    Main.process_one MoreSamples.llm_up_at MoreSamples.parse_spam_to_answer
      Samples.parse_plain_draft "fi" "fi" Samples.strftime_plain
      MoreSamples.clock_at 3 Samples.deals_email empty_world = (Ok tt, w') /\
    last (stdout w')
    = Some (Main.envelope ++ " Response drafted and pending approval").
Proof.
  intros c.
  assert (H1 : classify_attempt (MoreSamples.llm_up_at 3)
                 MoreSamples.parse_spam_to_answer "fi" Samples.deals_email
                 (MockGmailService.get_sender_context (sender Samples.deals_email))
               = Ok c) by reflexivity.
  assert (H2 : requires_response c = true) by reflexivity.
  assert (H3 : intent c = SPAM \/ intent c = NEWSLETTER) by (left; reflexivity).
  split; [exact H1|]. split; [exact H2|]. split; [exact H3|].
  destruct (ignored_email_reported_as_pending
              MoreSamples.llm_up_at MoreSamples.parse_spam_to_answer
              Samples.parse_plain_draft "fi" "fi" Samples.strftime_plain
              MoreSamples.clock_at 3%nat Samples.deals_email c empty_world
              H1 H2 H3)
    as (final & w1 & w' & _ & _ & _ & _ & Hone & Hlast).
  exists w'. split; [exact Hone|exact Hlast].
Defined.

Lemma announce_shows_short_content_in_full_witness :
  (String.length (content Samples.deals_email) <= 100)%nat /\
  exists w,
    Main.announce 3 Samples.deals_email empty_world = (Ok tt, w) /\
    last (stdout w) = Some "Content: Click here to save 90% on everything!...".
Proof.
  assert (H : (String.length (content Samples.deals_email) <= 100)%nat)
    by (vm_compute; lia).
  split; [exact H|].
  eexists. split.
  - exact (announce_shows_short_content_in_full 3 Samples.deals_email
             empty_world H).
  - reflexivity.
Defined.

(** A meeting request processed on 9999-12-27: the calendar stage raises
    and the exception leaves [process_email]. *)
Example meeting_request_in_the_last_week_raises :
  Runtime.process_email Samples.llm_up Samples.parse_meeting_request
    Samples.parse_plain_draft "fi" "fi" Samples.strftime_plain
    RuntimeFacts.clock_last_week Samples.meeting_email
    {| Runtime.agent := Runtime.EmailAgent_init;
       Runtime.console := empty_world |}
  = (Raise "date value out of range",
     {| Runtime.agent := Runtime.EmailAgent_init;
        Runtime.console :=
          {| stdout := [];
             executed := [enrich_sender; classify_email; check_calendar] |} |}).
Proof. vm_compute. reflexivity. Qed.

Lemma process_email_raises_only_on_date_overflow_witness :
  Runtime.valid_date RuntimeFacts.clock_last_week /\
  exists outcome r',
    Runtime.process_email Samples.llm_up Samples.parse_meeting_request
      Samples.parse_plain_draft "fi" "fi" Samples.strftime_plain
      RuntimeFacts.clock_last_week Samples.meeting_email
      {| Runtime.agent := Runtime.EmailAgent_init;
         Runtime.console := empty_world |}
    = (outcome, r') /\
    Runtime.agent r' = Runtime.EmailAgent_init.
Proof.
  assert (Hv : Runtime.valid_date RuntimeFacts.clock_last_week)
    by (unfold Runtime.valid_date, Runtime.max_ordinal; cbn; lia).
  split; [exact Hv|].
  destruct (process_email_raises_only_on_date_overflow
              Samples.llm_up Samples.parse_meeting_request
              Samples.parse_plain_draft "fi" "fi" Samples.strftime_plain
              RuntimeFacts.clock_last_week Samples.meeting_email
              empty_world Hv)
    as (outcome & r' & Hrun & Hagent & _).
  exists outcome, r'. split; [exact Hrun|exact Hagent].
Defined.

Lemma unreachable_model_sends_canned_reply_witness :
  (forall p, exists m, MoreSamples.llm_down_variously p = Raise m) /\
  exists final w,
    process_email MoreSamples.llm_down_variously Samples.parse_newsletter
      Samples.parse_plain_draft "fi" "fi" Samples.strftime_plain
      Samples.clock Samples.deals_email empty_world = (Ok final, w) /\
    final_response final
    = Some "Thank you for your email. I'll review this and get back to you soon." /\
    should_send final = true.
Proof.
  assert (H : forall p, exists m, MoreSamples.llm_down_variously p = Raise m)
    by (intros [] ; eexists; reflexivity).
  split; [exact H|].
  destruct (unreachable_model_sends_canned_reply
              MoreSamples.llm_down_variously Samples.parse_newsletter
              Samples.parse_plain_draft "fi" "fi" Samples.strftime_plain
              Samples.clock Samples.deals_email empty_world H)
    as (final & w & m & Hrun & _ & _ & _ & Hf & Hs & _).
  exists final, w. split; [exact Hrun|]. split; [exact Hf|exact Hs].
Defined.

Lemma main_with_api_key_runs_the_batch_witness :
  Some "sk-test" = Some (String "s" "k-test") /\
  exists r',
    Runtime.main (Some "sk-test") MoreSamples.llm_up_at
      Samples.parse_meeting_request Samples.parse_plain_draft "fi" "fi"
      Samples.strftime_plain MoreSamples.clock_at MoreSamples.clock_at
      {| Runtime.agent := {| Runtime.mock_contacts := ∅ |};
         Runtime.console := empty_world |}
    = (Ok tt, r') /\
    Runtime.agent r' = Runtime.EmailAgent_init.
Proof.
  assert (H : Some "sk-test" = Some (String "s" "k-test")) by reflexivity.
  split; [exact H|].
  destruct (main_with_api_key_runs_the_batch
              (Some "sk-test") MoreSamples.llm_up_at
              Samples.parse_meeting_request Samples.parse_plain_draft
              "fi" "fi" Samples.strftime_plain MoreSamples.clock_at
              MoreSamples.clock_at "s" "k-test"
              {| Runtime.agent := {| Runtime.mock_contacts := ∅ |};
                 Runtime.console := empty_world |} H)
    as (w' & traces & Hrun & _).
  eexists. split; [exact Hrun|reflexivity].
Defined.

(** * Where the code departs from a claim *)

